(** * win_notifer.py: a timer-driven Windows notification script

    A shallow embedding of [src/win_notifer.py] and the proofs of its
    specification.  The script talks to its host through a handful of
    calls ([print], [datetime.datetime.now], [winsound.PlaySound],
    [winsound.Beep], [time.sleep], [import winsound]); every one of them
    may return or raise, a [KeyboardInterrupt] included.  The host is an
    oracle that decides the outcome of the i-th call, the script is a
    computation in a state-and-exception monad, and a run leaves behind
    the module globals and the log of the calls it made, each tagged
    with the source line it was made from.

    What the model takes for granted: the imports of lines 1-4 succeed;
    the module is run as a script; an interrupt shows as the exception
    of the call during which it arrives; the unbounded loop is unfolded
    a given number of times, after which the run is reported as still
    running. *)

From Stdlib Require Import ZArith String Ascii List Bool Lia DecimalString.
From Stdlib Require Import Floats.SpecFloat.
From stdpp Require Import base gmap strings list.

Local Open Scope string_scope.
Local Open Scope Z_scope.
Local Open Scope list_scope.

(** ** Python values and exceptions *)

(** The values a configuration constant of the script can hold. *)
Inductive pyval :=
| PyNone
| PyBool (b : bool)
| PyInt (n : Z)
| PyFloat (f : spec_float)
| PyStr (s : string).

(** The part of the builtin exception hierarchy the script can meet. *)
Inductive pyclass :=
| BaseException | KeyboardInterrupt | SystemExit | GeneratorExit
| Exception | RuntimeError | NotImplementedError | RecursionError
| OSError | FileNotFoundError | ValueError | TypeError | OverflowError
| NameError | ImportError | MemoryError | UnicodeEncodeError.

#[global] Instance pyclass_eq_dec : EqDecision pyclass.
Proof. solve_decision. Defined.

(** The direct base class. *)
Definition base_of (c : pyclass) : option pyclass :=
  match c with
  | BaseException => None
  | KeyboardInterrupt | SystemExit | GeneratorExit | Exception => Some BaseException
  | NotImplementedError | RecursionError => Some RuntimeError
  | FileNotFoundError => Some OSError
  | UnicodeEncodeError => Some ValueError
  | RuntimeError | OSError | ValueError | TypeError | OverflowError
  | NameError | ImportError | MemoryError => Some Exception
  end.

Fixpoint issubclass_upto (depth : nat) (c d : pyclass) : bool :=
  if bool_decide (c = d) then true
  else match depth with
       | O => false
       | S depth' =>
           match base_of c with
           | Some b => issubclass_upto depth' b d
           | None => false
           end
       end.

(** [issubclass(c, d)]; the hierarchy above is four levels deep. *)
Definition issubclass (c d : pyclass) : bool := issubclass_upto 4 c d.

(** A raised exception: its class and its single argument. *)
Record exn := PyExc { exn_class : pyclass; exn_arg : pyval }.

Definition is_Exception (e : exn) : bool := issubclass (exn_class e) Exception.
Definition is_RuntimeError (e : exn) : bool := issubclass (exn_class e) RuntimeError.
Definition is_KeyboardInterrupt (e : exn) : bool :=
  issubclass (exn_class e) KeyboardInterrupt.

(** ** The host *)

Record datetime := DateTime {
  dt_year : nat; dt_month : nat; dt_day : nat;
  dt_hour : nat; dt_minute : nat; dt_second : nat }.

(** The calls the script makes to its host. *)
Inductive call :=
| Import (module : string)
| Print (text : string)
| DatetimeNow
| PlaySound (sound : pyval) (flags : Z)
| Beep (frequency duration : pyval)
| Sleep (secs : pyval).

(** The host: the platform name, the three flag constants of the
    [winsound] module (the script only names them), the clock, the
    [repr] of floats, and the oracle [respond i c] that says whether the
    i-th call of the run, being [c], returns ([None]) or raises. *)
Record host := Host {
  platform_system : string;
  SND_ALIAS : Z;
  SND_FILENAME : Z;
  SND_ASYNC : Z;
  now : nat -> datetime;
  float_repr : spec_float -> string;
  respond : nat -> call -> option exn }.

(** One entry of the log: the source line, the call, and its outcome. *)
Record event := Ev { ev_line : nat; ev_call : call; ev_reply : option exn }.

(** The state of a run: the module globals and the calls made so far,
    the most recent first. *)
Record state := St { globals : gmap string pyval; log : list event }.

(** The calls in the order they were made. *)
Definition trace (s : state) : list event := rev (log s).

Definition init_state : state := St ∅ [].

(** ** Formatting *)

Definition nl : string := String (ascii_of_nat 10) EmptyString.

Definition str_of_Z (n : Z) : string := NilZero.string_of_int (Z.to_int n).
Definition str_of_nat (n : nat) : string := str_of_Z (Z.of_nat n).

Fixpoint repeat_string (s : string) (n : nat) : string :=
  match n with
  | O => EmptyString
  | S n' => s +:+ repeat_string s n'
  end.

(** Zero padding on the left up to [width] characters. *)
Definition zfill (width : nat) (s : string) : string :=
  repeat_string "0" (width - String.length s) +:+ s.

(** [f"{t:%Y-%m-%d %H:%M:%S}"] *)
Definition strftime (t : datetime) : string :=
  zfill 4 (str_of_nat (dt_year t)) +:+ "-" +:+ zfill 2 (str_of_nat (dt_month t))
  +:+ "-" +:+ zfill 2 (str_of_nat (dt_day t)) +:+ " "
  +:+ zfill 2 (str_of_nat (dt_hour t)) +:+ ":" +:+ zfill 2 (str_of_nat (dt_minute t))
  +:+ ":" +:+ zfill 2 (str_of_nat (dt_second t)).

(** [bool(v)] *)
Definition truthy (v : pyval) : bool :=
  match v with
  | PyNone => false
  | PyBool b => b
  | PyInt n => negb (n =? 0)
  | PyFloat (S754_zero _) => false
  | PyFloat _ => true
  | PyStr s => negb (String.eqb s EmptyString)
  end.

(** [isinstance(v, (int, float))]; [bool] is a subclass of [int]. *)
Definition isinstance_int_float (v : pyval) : bool :=
  match v with
  | PyBool _ | PyInt _ | PyFloat _ => true
  | PyNone | PyStr _ => false
  end.

(** [v <= 0] where it is defined; [None] stands for the [TypeError]
    Python raises on the other values. *)
Definition le_zero (v : pyval) : option bool :=
  match v with
  | PyBool b => Some (negb b)
  | PyInt n => Some (n <=? 0)
  | PyFloat f => Some (SFleb f (S754_zero false))
  | PyNone | PyStr _ => None
  end.


(** ** The monad: state, exceptions, and fuel for the unbounded loop *)

(** A computation returns, raises, or is still running when the fuel
    given to [while True] is spent. *)
Inductive result (A : Type) :=
| Ret (a : A)
| Raise (e : exn)
| Fuel.
Arguments Ret {A} a.
Arguments Raise {A} e.
Arguments Fuel {A}.

Definition M (A : Type) : Type := state -> result A * state.

Definition ret {A} (a : A) : M A := fun s => (Ret a, s).
Definition raise {A} (e : exn) : M A := fun s => (Raise e, s).

Definition bind {A B} (m : M A) (k : A -> M B) : M B := fun s =>
  match m s with
  | (Ret a, s') => k a s'
  | (Raise e, s') => (Raise e, s')
  | (Fuel, s') => (Fuel, s')
  end.

Declare Scope py_scope.
Delimit Scope py_scope with py.
Notation "'let*' x := m 'in' k" := (bind m (fun x => k))
  (at level 10, x name, m at level 100, k at level 200) : py_scope.
Notation "m ;; k" := (bind m (fun _ => k))
  (at level 100, k at level 200, right associativity) : py_scope.

Local Open Scope py_scope.

(** [if c: body] as a statement. *)
Definition when (c : bool) (body : M unit) : M unit :=
  if c then body else ret tt.

(** [NAME = v] at module level. *)
Definition assign (name : string) (v : pyval) : M unit := fun s =>
  (Ret tt, St (<[name := v]> (globals s)) (log s)).

(** Reading the global [NAME]. *)
Definition load (name : string) : M pyval := fun s =>
  match globals s !! name with
  | Some v => (Ret v, s)
  | None =>
      (Raise (PyExc NameError (PyStr ("name '" +:+ name +:+ "' is not defined"))), s)
  end.

(** The clauses of a [try] statement: [except C as e: handler e]. *)
Definition clauses (A : Type) : Type := list (pyclass * (exn -> M A)).

Fixpoint find_handler {A} (e : exn) (hs : clauses A) : option (exn -> M A) :=
  match hs with
  | [] => None
  | (c, k) :: hs' => if issubclass (exn_class e) c then Some k else find_handler e hs'
  end.

(** [try: body except ...]: the first clause whose class matches runs;
    an exception raised by a handler is not looked up again. *)
Definition try_except {A} (body : M A) (hs : clauses A) : M A := fun s =>
  match body s with
  | (Raise e, s') =>
      match find_handler e hs with
      | Some k => k e s'
      | None => (Raise e, s')
      end
  | other => other
  end.

(** [try: body finally: fin]: [fin] runs however [body] ended, and an
    exception of [fin] replaces the pending one. *)
Definition try_finally {A} (body : M A) (fin : M unit) : M A := fun s =>
  match body s with
  | (Fuel, s') => (Fuel, s')
  | (r, s') =>
      match fin s' with
      | (Ret _, s'') => (r, s'')
      | (Raise e, s'') => (Raise e, s'')
      | (Fuel, s'') => (Fuel, s'')
      end
  end.

(** [while True: body], unfolded [fuel] times. *)
Fixpoint while_true (fuel : nat) (body : M unit) : M unit :=
  match fuel with
  | O => fun s => (Fuel, s)
  | S fuel' => body ;; while_true fuel' body
  end.

(** [sys.exit(code)] raises [SystemExit(code)]. *)
Definition sys_exit (code : pyval) : M unit := raise (PyExc SystemExit code).

(** ** The configuration block, lines 14-29 *)

Record config := Config {
  INTERVAL_SECONDS : pyval;
  SOUND_ALIAS : pyval;
  USE_ALIAS : pyval;
  BEEP_FREQUENCY : pyval;
  BEEP_DURATION : pyval;
  WAV_FILE : pyval;
  USE_WAV : pyval }.

(** The values the script ships with. *)
Definition shipped : config := {|
  INTERVAL_SECONDS := PyInt 300;
  SOUND_ALIAS := PyStr "SystemAsterisk";
  USE_ALIAS := PyBool true;
  BEEP_FREQUENCY := PyInt 1000;
  BEEP_DURATION := PyInt 300;
  WAV_FILE := PyStr "C:\Windows\Media\notify.wav";
  USE_WAV := PyBool true |}.

Section Script.

Variable h : host.
Variable cfg : config.

(** [str(v)], what an f-string puts in place of [{v}]. *)
Definition py_str (v : pyval) : string :=
  match v with
  | PyNone => "None"
  | PyBool true => "True"
  | PyBool false => "False"
  | PyInt n => str_of_Z n
  | PyFloat f => float_repr h f
  | PyStr s => s
  end.

(** A call to the host from source line [line]: it is logged with the
    outcome the host gives to the call of that rank. *)
Definition host_call (line : nat) (c : call) : M unit := fun s =>
  let r := respond h (length (log s)) c in
  let s' := St (globals s) (Ev line c r :: log s) in
  match r with
  | None => (Ret tt, s')
  | Some e => (Raise e, s')
  end.

Definition print (line : nat) (text : string) : M unit := host_call line (Print text).

(** [datetime.datetime.now()]: the clock is read when the call is made. *)
Definition datetime_now (line : nat) : M datetime := fun s =>
  (host_call line DatetimeNow ;; ret (now h (length (log s)))) s.

(** Lines 14-29. *)
Definition configuration : M unit :=
  assign "INTERVAL_SECONDS" (INTERVAL_SECONDS cfg) ;;
  assign "SOUND_ALIAS" (SOUND_ALIAS cfg) ;;
  assign "USE_ALIAS" (USE_ALIAS cfg) ;;
  assign "BEEP_FREQUENCY" (BEEP_FREQUENCY cfg) ;;
  assign "BEEP_DURATION" (BEEP_DURATION cfg) ;;
  assign "WAV_FILE" (WAV_FILE cfg) ;;
  assign "USE_WAV" (USE_WAV cfg).

(** Line 32: [not isinstance(v, (int, float)) or v <= 0]; [or] does not
    evaluate its right operand when the left one is true. *)
Definition interval_rejected (v : pyval) : M bool :=
  if negb (isinstance_int_float v) then ret true
  else match le_zero v with
       | Some b => ret b
       | None => raise (PyExc TypeError (PyStr "'<=' not supported"))
       end.

(** Lines 38-56. *)
Definition play_windows_notification : M unit :=
  try_except
    (let* t := datetime_now 41 in
     print 41 (strftime t +:+ " - Playing notification...") ;;
     let* use_alias := load "USE_ALIAS" in
     if truthy use_alias then
       let* alias := load "SOUND_ALIAS" in
       print 43 ("(Using alias: " +:+ py_str alias +:+ ")") ;;
       let* alias := load "SOUND_ALIAS" in
       host_call 44 (PlaySound alias (SND_ALIAS h))
     else
       let* use_wav := load "USE_WAV" in
       if truthy use_wav then
         let* wav := load "WAV_FILE" in
         print 46 ("(Using WAV file: " +:+ py_str wav +:+ ")") ;;
         let* wav := load "WAV_FILE" in
         host_call 48 (PlaySound wav (Z.lor (SND_FILENAME h) (SND_ASYNC h)))
       else
         let* freq := load "BEEP_FREQUENCY" in
         let* dur := load "BEEP_DURATION" in
         print 50 ("(Using Beep: " +:+ py_str freq +:+ " Hz, " +:+ py_str dur +:+ " ms)") ;;
         let* freq := load "BEEP_FREQUENCY" in
         let* dur := load "BEEP_DURATION" in
         host_call 51 (Beep freq dur))
    [ (RuntimeError, fun e =>
         print 53 (nl +:+ "Error playing sound with winsound: " +:+ py_str (exn_arg e)) ;;
         print 54 "Check if the sound alias/file exists or if another sound is playing.");
      (Exception, fun e =>
         print 56 (nl +:+ "An unexpected error occurred during sound playback: "
                   +:+ py_str (exn_arg e))) ].

(** Lines 71-72, the wait step. *)
Definition wait_step : M unit :=
  let* secs := load "INTERVAL_SECONDS" in
  print 71 ("Waiting for " +:+ py_str secs +:+ " seconds...") ;;
  let* secs := load "INTERVAL_SECONDS" in
  host_call 72 (Sleep secs).

(** Lines 67-72, the body of the loop. *)
Definition iteration : M unit :=
  play_windows_notification ;;
  wait_step.

(** Lines 65-79, the [try] statement around the loop. *)
Definition main_try (fuel : nat) : M unit :=
  try_finally
    (try_except
       (while_true fuel iteration)
       [ (KeyboardInterrupt, fun _ =>
            print 74 (nl +:+ "--- Notification Script Stopped by User ---"));
         (Exception, fun e =>
            print 76 (nl +:+ "--- An Unexpected Error Occurred ---") ;;
            print 77 ("Error details: " +:+ py_str (exn_arg e))) ])
    (print 79 "Exiting.").

(** Lines 59-79, run as a script ([__name__] is ["__main__"]). *)
Definition main (fuel : nat) : M unit :=
  print 60 "--- Windows Notification Script Started (using winsound) ---" ;;
  let* secs := load "INTERVAL_SECONDS" in
  print 61 ("Triggering sound every " +:+ py_str secs +:+ " seconds.") ;;
  print 62 "Press Ctrl+C to stop." ;;
  print 63 (repeat_string "-" 55) ;;
  main_try fuel.

(** Lines 6-9, the platform check. *)
Definition platform_check : M unit :=
  when (negb (String.eqb (platform_system h) "Windows"))
    (print 8 "Error: This script uses 'winsound' and is designed for Windows only." ;;
     sys_exit (PyInt 1)).

(** Lines 31-35, the input validation. *)
Definition input_validation : M unit :=
  let* secs := load "INTERVAL_SECONDS" in
  let* bad := interval_rejected secs in
  when bad
    (let* secs := load "INTERVAL_SECONDS" in
     print 33 ("Error: INTERVAL_SECONDS must be a positive number. Found: "
               +:+ py_str secs) ;;
     sys_exit (PyInt 1)).

(** The whole module, top to bottom. *)
Definition script (fuel : nat) : M unit :=
  platform_check ;;
  host_call 12 (Import "winsound") ;;
  configuration ;;
  input_validation ;;
  main fuel.

(** ** The process *)

(** How the process ends: the module ran to its end, [sys.exit] was
    called, an exception reached the interpreter, or the loop is still
    going. *)
Inductive outcome :=
| Finished
| Exited (code : pyval)
| Uncaught (e : exn)
| Running.

Definition outcome_of (r : result unit) : outcome :=
  match r with
  | Ret _ => Finished
  | Raise e => if bool_decide (exn_class e = SystemExit) then Exited (exn_arg e)
               else Uncaught e
  | Fuel => Running
  end.

(** The exit status where the script decides it: zero at the end of the
    module, the argument of [sys.exit].  What the interpreter reports
    for an uncaught exception is its own business. *)
Definition exit_status (o : outcome) : option Z :=
  match o with
  | Finished => Some 0
  | Exited (PyInt n) => Some n
  | Exited PyNone => Some 0
  | Exited (PyBool b) => Some (if b then 1 else 0)
  | Exited _ => Some 1
  | Uncaught _ => None
  | Running => None
  end.

Definition run (fuel : nat) : outcome * state :=
  let (r, s) := script fuel init_state in (outcome_of r, s).

End Script.

(** ** Vocabulary of the specification *)

(** The globals once the configuration block has run. *)
Definition config_globals (cfg : config) : gmap string pyval :=
  <["USE_WAV" := USE_WAV cfg]> (
  <["WAV_FILE" := WAV_FILE cfg]> (
  <["BEEP_DURATION" := BEEP_DURATION cfg]> (
  <["BEEP_FREQUENCY" := BEEP_FREQUENCY cfg]> (
  <["USE_ALIAS" := USE_ALIAS cfg]> (
  <["SOUND_ALIAS" := SOUND_ALIAS cfg]> (
  <["INTERVAL_SECONDS" := INTERVAL_SECONDS cfg]> ∅)))))).

Definition configured (cfg : config) (s : state) : Prop :=
  globals s = config_globals cfg.

(** The sound primitives. *)
Definition is_sound (c : call) : bool :=
  match c with
  | PlaySound _ _ | Beep _ _ => true
  | _ => false
  end.

(** The i-th call of the run returns if it is no sound call (a print,
    the clock, the sleep); it raises [e] if it is a sound call. *)
Definition quiet_at (h : host) (i : nat) : Prop :=
  forall c, is_sound c = false -> respond h i c = None.
Definition sound_fails_at (h : host) (i : nat) (e : exn) : Prop :=
  forall c, is_sound c = true -> respond h i c = Some e.


(** Lines 41-51 are the body of the [try] of [play_windows_notification]. *)
Definition in_try_block (line : nat) : bool :=
  ((41 <=? line) && (line <=? 51))%nat.

(** The lines the loop runs: 67-72, its body, and 41-56, the playback
    function it calls. *)
Definition in_loop (line : nat) : bool :=
  (((41 <=? line) && (line <=? 56)) || ((67 <=? line) && (line <=? 72)))%nat.

(** A call that returned, or whose exception the handlers of the
    playback function take: class [Exception], raised in the [try]. *)
Definition contained (ev : event) : bool :=
  match ev_reply ev with
  | None => true
  | Some e => in_try_block (ev_line ev) && is_Exception e
  end.


(** What the loop may ask of the host, and from which line. *)
Definition loop_event (h : host) (cfg : config) (ev : event) : Prop :=
  match ev_call ev with
  | DatetimeNow => ev_line ev = 41%nat
  | Print _ => In (ev_line ev) [41; 43; 46; 50; 53; 54; 56; 71]%nat
  | PlaySound snd flags =>
      (ev_line ev = 44%nat /\ truthy (USE_ALIAS cfg) = true /\
       snd = SOUND_ALIAS cfg /\ flags = SND_ALIAS h)
      \/ (ev_line ev = 48%nat /\ truthy (USE_ALIAS cfg) = false /\
          truthy (USE_WAV cfg) = true /\
          snd = WAV_FILE cfg /\ flags = Z.lor (SND_FILENAME h) (SND_ASYNC h))
  | Beep f d =>
      ev_line ev = 51%nat /\ truthy (USE_ALIAS cfg) = false /\
      truthy (USE_WAV cfg) = false /\
      f = BEEP_FREQUENCY cfg /\ d = BEEP_DURATION cfg
  | Sleep v => ev_line ev = 72%nat /\ v = INTERVAL_SECONDS cfg
  | Import _ => False
  end.

(** How a computation that started in [s] and made the calls [evs]
    (the most recent first) may have ended: normally with every failure
    contained, or by the exception of its last call, which was not. *)
Definition ended (r : result unit) (evs : list event) : Prop :=
  match r with
  | Ret _ => Forall (fun ev => contained ev = true) evs
  | Raise e =>
      exists ev evs', evs = ev :: evs' /\ ev_reply ev = Some e /\
        contained ev = false /\ Forall (fun ev => contained ev = true) evs'
  | Fuel => False
  end.

(** The same for the loop, which never returns: it is still running
    when the fuel is spent, or it was left by an exception. *)
Definition loop_ended (r : result unit) (evs : list event) : Prop :=
  match r with
  | Ret _ => False
  | Raise e =>
      exists ev evs', evs = ev :: evs' /\ ev_reply ev = Some e /\
        contained ev = false /\ Forall (fun ev => contained ev = true) evs'
  | Fuel => Forall (fun ev => contained ev = true) evs
  end.

(** The messages of the two start-up errors and of the shutdown. *)
Definition platform_error : call :=
  Print "Error: This script uses 'winsound' and is designed for Windows only.".
Definition interval_error (h : host) (cfg : config) : call :=
  Print ("Error: INTERVAL_SECONDS must be a positive number. Found: "
         +:+ py_str h (INTERVAL_SECONDS cfg)).
Definition stopped_by_user : call :=
  Print (nl +:+ "--- Notification Script Stopped by User ---").
Definition unexpected_error : call :=
  Print (nl +:+ "--- An Unexpected Error Occurred ---").
Definition error_details (h : host) (e : exn) : call :=
  Print ("Error details: " +:+ py_str h (exn_arg e)).
Definition exiting : call := Print "Exiting.".

(** An event that is no part of the loop: not made from its lines, and
    not a sound call. *)
Definition outside_loop (ev : event) : Prop :=
  in_loop (ev_line ev) = false /\ is_sound (ev_call ev) = false.

(** What the handlers of the playback function print first for [e]:
    line 53 for a [RuntimeError], line 56 for another [Exception]. *)
Definition failure_report (h : host) (e : exn) : nat * call :=
  if is_RuntimeError e
  then (53%nat, Print (nl +:+ "Error playing sound with winsound: "
                       +:+ py_str h (exn_arg e)))
  else (56%nat, Print (nl +:+ "An unexpected error occurred during sound playback: "
                       +:+ py_str h (exn_arg e))).


(** The lines a caught playback failure leaves on the console. *)
Definition failure_lines (h : host) (e : exn) : list event :=
  Ev (fst (failure_report h e)) (snd (failure_report h e)) None
  :: (if is_RuntimeError e
      then [Ev 54 (Print "Check if the sound alias/file exists or if another sound is playing.")
               None]
      else []).

(** The first line of a playback and the line of the wait step. *)
Definition playing_line (h : host) (i : nat) : call :=
  Print (strftime (now h i) +:+ " - Playing notification...").
Definition waiting_line (h : host) (cfg : config) : call :=
  Print ("Waiting for " +:+ py_str h (INTERVAL_SECONDS cfg) +:+ " seconds...").





(** A call of the loop whose exception leaves the loop. *)
Definition escapes (ev : event) : Prop :=
  in_loop (ev_line ev) = true /\ contained ev = false.

(** The number of sound calls among some events. *)
Definition sound_calls (evs : list event) : nat :=
  length (List.filter (fun ev => is_sound (ev_call ev)) evs).

(** A computation that leaves the module globals as it found them. *)
Definition keeps_globals {A} (m : M A) : Prop :=
  forall s r s', m s = (r, s') -> globals s' = globals s.

(** ** More vocabulary: start-up and shutdown *)

(** The calls a run begins with when nothing goes wrong before the loop,
    in the order made: the import of line 12 and the banner of lines
    60-63. *)
Definition banner (h : host) (cfg : config) : list event :=
  [Ev 12 (Import "winsound") None;
   Ev 60 (Print "--- Windows Notification Script Started (using winsound) ---") None;
   Ev 61 (Print ("Triggering sound every " +:+ py_str h (INTERVAL_SECONDS cfg)
                 +:+ " seconds.")) None;
   Ev 62 (Print "Press Ctrl+C to stop.") None;
   Ev 63 (Print (repeat_string "-" 55)) None].

(** A call made before the [try] statement of line 65. *)
Definition before_try (ev : event) : Prop :=
  In (ev_line ev) [8; 12; 33; 60; 61; 62; 63]%nat.

(** What the handlers of lines 73-77 do with the exception [e] that
    left the loop when [i] calls had been made: the calls they make (the
    most recent first) and how the [try] ends before its [finally]. *)
Definition shutdown (h : host) (e : exn) (i : nat)
    (part : list event) (r : result unit) : Prop :=
  (is_KeyboardInterrupt e = true
   /\ part = [Ev 74 stopped_by_user (respond h i stopped_by_user)]
   /\ r = match respond h i stopped_by_user with
          | None => Ret tt
          | Some e' => Raise e'
          end)
  \/ (is_KeyboardInterrupt e = false /\ is_Exception e = true
      /\ match respond h i unexpected_error with
         | Some e' => part = [Ev 76 unexpected_error (Some e')] /\ r = Raise e'
         | None =>
             part = [Ev 77 (error_details h e) (respond h (S i) (error_details h e));
                     Ev 76 unexpected_error None]
             /\ r = match respond h (S i) (error_details h e) with
                    | None => Ret tt
                    | Some e' => Raise e'
                    end
         end)
  \/ (is_KeyboardInterrupt e = false /\ is_Exception e = false
      /\ part = [] /\ r = Raise e).

(** Counting calls of one kind. *)
Definition is_sleep (c : call) : bool :=
  match c with Sleep _ => true | _ => false end.
Definition is_clock (c : call) : bool :=
  match c with DatetimeNow => true | _ => false end.
Definition count_calls (kind : call -> bool) (evs : list event) : nat :=
  length (List.filter (fun ev => kind (ev_call ev)) evs).

(** ** More vocabulary: what is printed before a call *)

(** The line that names a sound or a wait before the call is made: the
    resource line of lines 43, 46 and 50 for the sound calls of lines
    44, 48 and 51, the line of line 71 for the sleep of line 72. *)
Definition announcement (h : host) (ev : event) : option event :=
  match ev_call ev with
  | PlaySound name _ =>
      if Nat.eqb (ev_line ev) 44
      then Some (Ev 43 (Print ("(Using alias: " +:+ py_str h name +:+ ")")) None)
      else if Nat.eqb (ev_line ev) 48
      then Some (Ev 46 (Print ("(Using WAV file: " +:+ py_str h name +:+ ")")) None)
      else None
  | Beep freq dur =>
      Some (Ev 50 (Print ("(Using Beep: " +:+ py_str h freq +:+ " Hz, "
                          +:+ py_str h dur +:+ " ms)")) None)
  | Sleep secs =>
      Some (Ev 71 (Print ("Waiting for " +:+ py_str h secs +:+ " seconds...")) None)
  | _ => None
  end.

(** The call [ev], made after the calls [older] (the most recent first),
    was announced: a sleep right after its line, a sound call right
    after the clock was read, the time read was printed and its resource
    line was printed, each of these calls having returned. *)
Definition announced_at (h : host) (ev : event) (older : list event) : Prop :=
  match announcement h ev with
  | Some line =>
      if is_sleep (ev_call ev) then exists rest, older = line :: rest
      else exists rest,
             older = line :: Ev 41 (playing_line h (length rest)) None
                          :: Ev 41 DatetimeNow None :: rest
  | None => is_sound (ev_call ev) = false /\ is_sleep (ev_call ev) = false
  end.

Fixpoint announced (h : host) (l : list event) : Prop :=
  match l with
  | [] => True
  | ev :: older => announced_at h ev older /\ announced h older
  end.

(** Two computations that do the same from any log when the one runs
    with the globals [g1] and the other with [g2], neither changing its
    globals. *)
Definition same_behaviour (g1 g2 : gmap string pyval) {A} (m1 m2 : M A) : Prop :=
  forall l r s1, m1 (St g1 l) = (r, s1) ->
    globals s1 = g1 /\ m2 (St g2 l) = (r, St g2 (log s1)).

(** Two configurations that agree on what the script reads: the
    interval, the truth value of each flag it tests, and the parameters
    of the mode those flags select. *)
Definition same_settings (c1 c2 : config) : Prop :=
  INTERVAL_SECONDS c1 = INTERVAL_SECONDS c2
  /\ truthy (USE_ALIAS c1) = truthy (USE_ALIAS c2)
  /\ if truthy (USE_ALIAS c1) then SOUND_ALIAS c1 = SOUND_ALIAS c2
     else truthy (USE_WAV c1) = truthy (USE_WAV c2)
          /\ if truthy (USE_WAV c1) then WAV_FILE c1 = WAV_FILE c2
             else BEEP_FREQUENCY c1 = BEEP_FREQUENCY c2
                  /\ BEEP_DURATION c1 = BEEP_DURATION c2.

(** ** Sample hosts and configurations *)

Definition sample_clock (i : nat) : datetime :=
  DateTime 2024 3 15 9 (i / 60) (i mod 60).

(** A Windows host with the flag values of [winsound], a clock that
    advances a second per call, and the given oracle (the only float the
    samples print is NaN). *)
Definition windows_host (oracle : nat -> call -> option exn) : host :=
  Host "Windows" 65536 131072 1 sample_clock (fun _ => "nan") oracle.

(** Every call returns. *)
Definition calm_host : host := windows_host (fun _ _ => None).

(** The sound device is busy: every sound call raises [RuntimeError]. *)
Definition device_busy : exn := PyExc RuntimeError (PyStr "Failed to play sound").
Definition busy_host : host :=
  windows_host (fun _ c => if is_sound c then Some device_busy else None).

(** Ctrl+C arrives during the sleep. *)
Definition ctrl_c : exn := PyExc KeyboardInterrupt PyNone.
Definition interrupting_host : host :=
  windows_host (fun _ c => match c with Sleep _ => Some ctrl_c | _ => None end).

(** [time.sleep] rejects its argument. *)
Definition sleep_rejected : exn :=
  PyExc ValueError (PyStr "Invalid value NaN (not a number)").
Definition sleepless_host : host :=
  windows_host (fun _ c => match c with Sleep _ => Some sleep_rejected | _ => None end).

(** Not Windows. *)
Definition linux_host : host :=
  Host "Linux" 0 0 0 sample_clock (fun _ => "nan") (fun _ _ => None).

(** The shipped configuration with another interval. *)
Definition with_interval (v : pyval) : config := {|
  INTERVAL_SECONDS := v;
  SOUND_ALIAS := SOUND_ALIAS shipped;
  USE_ALIAS := USE_ALIAS shipped;
  BEEP_FREQUENCY := BEEP_FREQUENCY shipped;
  BEEP_DURATION := BEEP_DURATION shipped;
  WAV_FILE := WAV_FILE shipped;
  USE_WAV := USE_WAV shipped |}.

(** The state in which the loop starts when nothing was logged before. *)
Definition loaded (cfg : config) : state := St (config_globals cfg) [].

(** The console is gone: every print raises. *)
Definition console_closed : exn := PyExc OSError (PyStr "[Errno 9] Bad file descriptor").
Definition mute_host : host :=
  windows_host (fun _ c => match c with Print _ => Some console_closed | _ => None end).

(** The sound device is busy, and the console goes after four calls. *)
Definition closing_host : host :=
  windows_host (fun i c =>
    if is_sound c then Some device_busy
    else match c with
         | Print _ => if (4 <=? i)%nat then Some console_closed else None
         | _ => None
         end).

(** The interpreter is told to exit during the sleep. *)
Definition exit_request : exn := PyExc SystemExit (PyInt 3).
Definition leaving_host : host :=
  windows_host (fun _ c => match c with Sleep _ => Some exit_request | _ => None end).

(** The shipped alias, selected by another true value, with other
    parameters for the two modes that are not selected. *)
Definition retuned : config := {|
  INTERVAL_SECONDS := INTERVAL_SECONDS shipped;
  SOUND_ALIAS := SOUND_ALIAS shipped;
  USE_ALIAS := PyInt 1;
  BEEP_FREQUENCY := PyInt 440;
  BEEP_DURATION := PyInt 50;
  WAV_FILE := PyStr "C:\Windows\Media\chimes.wav";
  USE_WAV := PyBool false |}.

Section Proofs.

Variable h : host.
Variable cfg : config.

Abbreviation play := (play_windows_notification h).
Abbreviation interval_error := (interval_error h cfg).

Lemma RuntimeError_is_Exception e : is_RuntimeError e = true -> is_Exception e = true.
Proof. destruct e as [c a]; destruct c; vm_compute; congruence. Qed.

Lemma lookup_INTERVAL_SECONDS :
  config_globals cfg !! "INTERVAL_SECONDS" = Some (INTERVAL_SECONDS cfg).
Proof. reflexivity. Qed.
Lemma lookup_SOUND_ALIAS : config_globals cfg !! "SOUND_ALIAS" = Some (SOUND_ALIAS cfg).
Proof. reflexivity. Qed.
Lemma lookup_USE_ALIAS : config_globals cfg !! "USE_ALIAS" = Some (USE_ALIAS cfg).
Proof. reflexivity. Qed.
Lemma lookup_BEEP_FREQUENCY :
  config_globals cfg !! "BEEP_FREQUENCY" = Some (BEEP_FREQUENCY cfg).
Proof. reflexivity. Qed.
Lemma lookup_BEEP_DURATION : config_globals cfg !! "BEEP_DURATION" = Some (BEEP_DURATION cfg).
Proof. reflexivity. Qed.
Lemma lookup_WAV_FILE : config_globals cfg !! "WAV_FILE" = Some (WAV_FILE cfg).
Proof. reflexivity. Qed.
Lemma lookup_USE_WAV : config_globals cfg !! "USE_WAV" = Some (USE_WAV cfg).
Proof. reflexivity. Qed.

Ltac lookups :=
  rewrite ?lookup_INTERVAL_SECONDS, ?lookup_SOUND_ALIAS, ?lookup_USE_ALIAS,
    ?lookup_BEEP_FREQUENCY, ?lookup_BEEP_DURATION, ?lookup_WAV_FILE, ?lookup_USE_WAV.

(** Unfolding the monad and the statements, leaving strings alone. *)
Ltac unfold_monad :=
  cbv beta iota zeta delta
    [play_windows_notification wait_step
     try_except try_finally find_handler datetime_now print bind load host_call
     ret raise when sys_exit globals log fst snd].

(** A step whose outcome a hypothesis tells. *)
Ltac known_reply :=
  match goal with
  | H : quiet_at h ?i |- context [respond h ?i ?c] => rewrite (H c eq_refl)
  | H : sound_fails_at h ?i _ |- context [respond h ?i ?c] => rewrite (H c eq_refl)
  | H : respond h ?i ?c = _ |- context [respond h ?i ?c] => rewrite H
  | H : truthy ?v = _ |- context [truthy ?v] => rewrite H
  | H : issubclass ?c ?d = _ |- context [issubclass ?c ?d] => rewrite H
  end.

(** One step of a run: a read of a global, a call whose outcome is known,
    or else a case split on what the host or the configuration says. *)
Ltac run_step :=
  first
    [ progress lookups
    | progress cbn [length]
    | known_reply
    | match goal with
      | |- context [respond h ?i ?c] =>
          let E := fresh "Hr" in destruct (respond h i c) eqn:E
      | |- context [if truthy ?v then _ else _] =>
          let E := fresh "Ht" in destruct (truthy v) eqn:E
      | |- context [if issubclass ?c ?d then _ else _] =>
          let E := fresh "Hc" in destruct (issubclass c d) eqn:E
      end
    | progress unfold_monad ].

Ltac new_events old new :=
  match new with
  | old => constr:(@nil event)
  | ?ev :: ?rest => let evs := new_events old rest in constr:(ev :: evs)
  end.

Ltac give_events :=
  match goal with
  | |- exists evs, ?new = evs ++ ?old /\ _ =>
      let evs := new_events old new in exists evs; split; [reflexivity|]
  end.

Ltac solve_loop_event :=
  unfold loop_event; cbn [ev_call ev_line In];
  first [ reflexivity
        | (repeat first [ left; reflexivity | right ]); fail
        | (left; repeat split; first [reflexivity | assumption]); fail
        | (right; repeat split; first [reflexivity | assumption]); fail
        | repeat split; first [reflexivity | assumption] ].

Ltac solve_contained :=
  unfold contained; cbn [ev_reply ev_line in_try_block andb Nat.leb]; unfold is_Exception;
  first [ reflexivity | assumption | (apply RuntimeError_is_Exception; assumption) ].

Ltac solve_ended :=
  unfold ended;
  lazymatch goal with
  | |- Forall _ _ => repeat (constructor; [solve_contained|]); constructor
  | |- exists _ _, _ =>
      eexists _, _; split; [reflexivity|]; split; [reflexivity|]; split;
      [ solve_contained | repeat (constructor; [solve_contained|]); constructor ]
  end.

Lemma play_spec s r s' :
  configured cfg s -> play s = (r, s') ->
  globals s' = globals s /\
  exists evs, log s' = evs ++ log s /\ Forall (loop_event h cfg) evs /\ ended r evs.
Proof.
  destruct s as [g l]. unfold configured. cbn [globals]. intros ->.
  unfold_monad. repeat run_step.
  all: intros [= <- <-]; cbn [globals log]; split; [reflexivity|].
  all: give_events; split;
    [ repeat (constructor; [solve_loop_event|]); constructor | solve_ended ].
Qed.

Lemma wait_step_spec s r s' :
  configured cfg s -> wait_step h s = (r, s') ->
  globals s' = globals s /\
  exists evs, log s' = evs ++ log s /\ Forall (loop_event h cfg) evs /\ ended r evs.
Proof.
  destruct s as [g l]. unfold configured. cbn [globals]. intros ->.
  unfold_monad. repeat run_step.
  all: intros [= <- <-]; cbn [globals log]; split; [reflexivity|].
  all: give_events; split;
    [ repeat (constructor; [solve_loop_event|]); constructor | solve_ended ].
Qed.

Lemma ended_after evs1 evs2 r :
  Forall (fun ev => contained ev = true) evs1 -> ended r evs2 -> ended r (evs2 ++ evs1).
Proof.
  intros H1. destruct r as [[]|e|]; cbn; [|intros (ev & evs' & -> & ? & ? & ?)|tauto].
  - intros H2. apply Forall_app; auto.
  - exists ev, (evs' ++ evs1). repeat split; auto. apply Forall_app; auto.
Qed.

Lemma iteration_spec s r s' :
  configured cfg s -> iteration h s = (r, s') ->
  globals s' = globals s /\
  exists evs, log s' = evs ++ log s /\ Forall (loop_event h cfg) evs /\ ended r evs.
Proof.
  intros Hs. unfold iteration, bind.
  destruct (play s) as [r1 s1] eqn:Hplay.
  destruct (play_spec _ _ _ Hs Hplay) as (Hg1 & evs1 & Hl1 & He1 & Hr1).
  destruct r1 as [[]|e|]; [|intros [= <- <-]; eauto 6|destruct Hr1].
  intros Hwait.
  assert (Hs1 : configured cfg s1) by (unfold configured in *; congruence).
  destruct (wait_step_spec _ _ _ Hs1 Hwait) as (Hg2 & evs2 & Hl2 & He2 & Hr2).
  split; [congruence|]. exists (evs2 ++ evs1). split; [|split].
  - rewrite Hl2, Hl1. apply app_assoc.
  - apply Forall_app; auto.
  - apply ended_after; assumption.
Qed.

Lemma loop_ended_after evs1 evs2 r :
  Forall (fun ev => contained ev = true) evs1 -> loop_ended r evs2 ->
  loop_ended r (evs2 ++ evs1).
Proof.
  intros H1. destruct r as [[]|e|]; cbn; [tauto|intros (ev & evs' & -> & ? & ? & ?)|].
  - exists ev, (evs' ++ evs1). repeat split; auto. apply Forall_app; auto.
  - intros H2. apply Forall_app; auto.
Qed.

Lemma while_true_spec fuel : forall s r s',
  configured cfg s -> while_true fuel (iteration h) s = (r, s') ->
  globals s' = globals s /\
  exists evs, log s' = evs ++ log s /\ Forall (loop_event h cfg) evs /\ loop_ended r evs.
Proof.
  induction fuel as [|fuel IH]; intros s r s' Hs; cbn [while_true].
  - intros [= <- <-]. split; [reflexivity|]. exists []. repeat split; constructor.
  - unfold bind. destruct (iteration h s) as [r1 s1] eqn:Hit.
    destruct (iteration_spec _ _ _ Hs Hit) as (Hg1 & evs1 & Hl1 & He1 & Hr1).
    destruct r1 as [[]|e|]; [|intros [= <- <-]; split; [assumption|]; exists evs1; auto|destruct Hr1].
    intros Hloop.
    assert (Hs1 : configured cfg s1) by (unfold configured in *; congruence).
    destruct (IH _ _ _ Hs1 Hloop) as (Hg2 & evs2 & Hl2 & He2 & Hr2).
    split; [congruence|]. exists (evs2 ++ evs1). split; [|split].
    + rewrite Hl2, Hl1. apply app_assoc.
    + apply Forall_app; auto.
    + apply loop_ended_after; assumption.
Qed.

(** *** Start-up *)

Lemma configuration_spec l :
  configuration cfg (St ∅ l) = (Ret tt, St (config_globals cfg) l).
Proof. reflexivity. Qed.

Lemma script_not_windows fuel :
  platform_system h <> "Windows" ->
  script h cfg fuel init_state =
    (match respond h 0 platform_error with
     | None => Raise (PyExc SystemExit (PyInt 1))
     | Some e => Raise e
     end, St ∅ [Ev 8 platform_error (respond h 0 platform_error)]).
Proof.
  intros Hp%String.eqb_neq. unfold script, platform_check, bind at 1 2.
  rewrite Hp. cbn [negb when]. unfold print, bind, host_call, init_state.
  cbn [log length globals]. fold platform_error.
  destruct (respond h 0 platform_error); reflexivity.
Qed.

Lemma script_windows fuel :
  platform_system h = "Windows" ->
  script h cfg fuel init_state =
    match respond h 0 (Import "winsound") with
    | None => (input_validation h ;; main h fuel)
                (St (config_globals cfg) [Ev 12 (Import "winsound") None])
    | Some e => (Raise e, St ∅ [Ev 12 (Import "winsound") (Some e)])
    end.
Proof.
  intros Hp. unfold script, platform_check, bind at 1 2 3.
  rewrite Hp. cbn [String.eqb Ascii.eqb Bool.eqb negb when ret].
  unfold host_call, init_state. cbn [log length globals].
  destruct (respond h 0 (Import "winsound")); reflexivity.
Qed.

Lemma input_validation_rejects l :
  isinstance_int_float (INTERVAL_SECONDS cfg) = false
  \/ le_zero (INTERVAL_SECONDS cfg) = Some true ->
  input_validation h (St (config_globals cfg) l) =
    (match respond h (length l) interval_error with
     | None => Raise (PyExc SystemExit (PyInt 1))
     | Some e => Raise e
     end, St (config_globals cfg) (Ev 33 interval_error (respond h (length l) interval_error) :: l)).
Proof.
  intros Hbad. unfold input_validation, interval_rejected, interval_error.
  unfold_monad. lookups. unfold_monad. revert Hbad.
  destruct (INTERVAL_SECONDS cfg) as [|b|n|f|t] eqn:Hv;
    cbn [isinstance_int_float le_zero negb]; intros [Hbad|Hbad]; try discriminate;
    try (injection Hbad as Hbad; rewrite Hbad);
    unfold_monad; lookups; rewrite ?Hv; unfold_monad.
  all: match goal with |- context [respond h ?i ?c] => destruct (respond h i c) end;
    reflexivity.
Qed.

Lemma input_validation_accepts s :
  configured cfg s ->
  isinstance_int_float (INTERVAL_SECONDS cfg) = true ->
  le_zero (INTERVAL_SECONDS cfg) = Some false ->
  input_validation h s = (Ret tt, s).
Proof.
  destruct s as [g l]. unfold configured. cbn [globals]. intros -> Hnum Hle.
  unfold input_validation, interval_rejected. unfold_monad. lookups.
  rewrite Hnum, Hle. reflexivity.
Qed.

(** *** The claims on start-up *)

(** C4. On a platform other than Windows the only thing the program does
    is print the platform error from line 8: no other call is made, the
    configuration block has not run (the globals are empty, so neither
    the sound mode nor the interval has been looked at), and once the
    message is out the process exits with status 1. *)
Theorem platform_guard fuel out s :
  platform_system h <> "Windows" ->
  run h cfg fuel = (out, s) ->
  trace s = [Ev 8 platform_error (respond h 0 platform_error)]
  /\ globals s = ∅
  /\ out <> Finished /\ out <> Running
  /\ (respond h 0 platform_error = None ->
      out = Exited (PyInt 1) /\ exit_status out = Some 1).
Proof.
  intros Hp. unfold run. rewrite (script_not_windows fuel Hp).
  destruct (respond h 0 platform_error) as [e|]; intros [= <- <-]; cbn.
  - repeat split; try discriminate; case_bool_decide; discriminate.
  - repeat split; discriminate.
Qed.


(** *** No statement after the configuration block assigns a global *)

Lemma keeps_ret {A} (a : A) : keeps_globals (ret a).
Proof. intros s r s' [= <- <-]. reflexivity. Qed.

Lemma keeps_raise {A} e : keeps_globals (@raise A e).
Proof. intros s r s' [= <- <-]. reflexivity. Qed.

Lemma keeps_bind {A B} (m : M A) (k : A -> M B) :
  keeps_globals m -> (forall a, keeps_globals (k a)) -> keeps_globals (bind m k).
Proof.
  intros Hm Hk s r s'. unfold bind. destruct (m s) as [[a|e|] s1] eqn:Hms.
  - intros Hks. rewrite (Hk _ _ _ _ Hks). eauto.
  - intros [= <- <-]. eauto.
  - intros [= <- <-]. eauto.
Qed.

Lemma keeps_load name : keeps_globals (load name).
Proof.
  intros s r s'. unfold load. destruct (globals s !! name); intros [= <- <-]; reflexivity.
Qed.

Lemma keeps_host_call line c : keeps_globals (host_call h line c).
Proof.
  intros s r s'. unfold host_call.
  destruct (respond h (length (log s)) c); intros [= <- <-]; reflexivity.
Qed.

Lemma keeps_datetime_now line : keeps_globals (datetime_now h line).
Proof.
  intros s r s' H. unfold datetime_now in H.
  eapply (keeps_bind (host_call h line DatetimeNow)); eauto using keeps_host_call.
  intros; apply keeps_ret.
Qed.

Lemma keeps_when c m : keeps_globals m -> keeps_globals (when c m).
Proof. destruct c; cbn; [auto|intros _; apply keeps_ret]. Qed.

Lemma keeps_try_except {A} (body : M A) (hs : clauses A) :
  keeps_globals body -> Forall (fun ck => forall e, keeps_globals (snd ck e)) hs ->
  keeps_globals (try_except body hs).
Proof.
  intros Hb Hhs s r s'. unfold try_except.
  destruct (body s) as [[a|e|] s1] eqn:Hbs; try (intros [= <- <-]; eauto).
  assert (Hfind : forall k, find_handler e hs = Some k -> keeps_globals (k e)).
  { clear -Hhs. induction Hhs as [|[c k'] hs' Hk _ IH]; cbn [find_handler]; [discriminate|].
    intros k. destruct (issubclass (exn_class e) c); [|apply IH].
    intros Heq. assert (k' = k) as <- by congruence. apply Hk. }
  destruct (find_handler e hs) as [k|] eqn:Hf.
  - intros Hk. specialize (Hfind k eq_refl). rewrite (Hfind _ _ _ Hk). eauto.
  - intros [= <- <-]. eauto.
Qed.

Lemma keeps_try_finally {A} (body : M A) (fin : M unit) :
  keeps_globals body -> keeps_globals fin -> keeps_globals (try_finally body fin).
Proof.
  intros Hb Hf s r s'. unfold try_finally.
  destruct (body s) as [[a|e|] s1] eqn:Hbs; try (intros [= <- <-]; eauto).
  all: destruct (fin s1) as [[[]|e'|] s2] eqn:Hfs; intros [= <- <-];
    rewrite (Hf _ _ _ Hfs); eauto.
Qed.

Lemma keeps_while_true fuel body :
  keeps_globals body -> keeps_globals (while_true fuel body).
Proof.
  intros Hb. induction fuel as [|fuel IH]; cbn [while_true].
  - intros s r s' [= <- <-]. reflexivity.
  - apply keeps_bind; auto.
Qed.

Ltac keeps :=
  repeat first
    [ apply keeps_bind; [|intros ?]
    | apply keeps_try_finally
    | apply keeps_try_except
    | match goal with
      | |- Forall _ [] => constructor
      | |- Forall _ (_ :: _) => constructor; [intros ?; cbn [snd]|]
      end
    | apply keeps_while_true
    | apply keeps_when
    | apply keeps_host_call
    | apply keeps_datetime_now
    | apply keeps_load
    | apply keeps_ret
    | apply keeps_raise
    | match goal with |- keeps_globals (if ?b then _ else _) => destruct b end
    | match goal with |- keeps_globals (match ?o with Some _ => _ | None => _ end) =>
        destruct o end ].

Lemma keeps_play : keeps_globals play.
Proof. unfold play_windows_notification, print. keeps. Qed.

Lemma keeps_iteration : keeps_globals (iteration h).
Proof. unfold iteration, wait_step, print. keeps. Qed.

Lemma keeps_main fuel : keeps_globals (main h fuel).
Proof. unfold main, main_try, print. keeps. Qed.

Lemma keeps_input_validation : keeps_globals (input_validation h).
Proof. unfold input_validation, interval_rejected, print, sys_exit. keeps. Qed.

(** C8. The seven configuration globals are assigned by the
    configuration block and by nothing else: the playback function, the
    loop body, the loop and the whole main part leave the globals as
    they found them from any state, and whenever one looks at a run
    (after any number of iterations) the globals are either still empty,
    the program having stopped before the configuration block, or
    exactly the configured values, which every read of the loop
    therefore returns. *)
Theorem configuration_is_immutable :
  (forall l, configuration cfg (St ∅ l) = (Ret tt, St (config_globals cfg) l))
  /\ keeps_globals play
  /\ keeps_globals (iteration h)
  /\ (forall fuel, keeps_globals (while_true fuel (iteration h)))
  /\ (forall fuel, keeps_globals (main h fuel))
  /\ (forall fuel out s, run h cfg fuel = (out, s) ->
        globals s = ∅ \/
        (globals s = config_globals cfg /\
         forall name v, config_globals cfg !! name = Some v -> load name s = (Ret v, s))).
Proof.
  split; [reflexivity|]. split; [apply keeps_play|]. split; [apply keeps_iteration|].
  split; [intros; apply keeps_while_true, keeps_iteration|].
  split; [apply keeps_main|].
  intros fuel out s. unfold run.
  destruct (script h cfg fuel init_state) as [r s1] eqn:Hrun. intros [= <- <-].
  destruct (decide (platform_system h = "Windows")) as [Hp|Hp].
  - rewrite (script_windows fuel Hp) in Hrun.
    destruct (respond h 0 (Import "winsound")); [injection Hrun as <- <-; left; reflexivity|].
    right.
    assert (Hg : globals s1 = config_globals cfg).
    { eapply (keeps_bind (input_validation h) (fun _ => main h fuel)) in Hrun;
        auto using keeps_input_validation, keeps_main. }
    split; [exact Hg|]. intros name v Hv. unfold load. rewrite Hg, Hv. reflexivity.
  - rewrite (script_not_windows fuel Hp) in Hrun. injection Hrun as <- <-. left. reflexivity.
Qed.

(** *** Dispatch *)


(** *** The whole run *)

Lemma loop_event_in_loop ev : loop_event h cfg ev -> in_loop (ev_line ev) = true.
Proof.
  unfold loop_event. destruct ev as [line c reply]; cbn [ev_call ev_line].
  destruct c; cbn [In]; intros H; intuition (subst; reflexivity).
Qed.

Lemma main_try_spec fuel s r s' :
  configured cfg s -> main_try h fuel s = (r, s') ->
  exists r0 s0 evs tail,
    while_true fuel (iteration h) s = (r0, s0)
    /\ globals s0 = globals s
    /\ log s0 = evs ++ log s /\ Forall (loop_event h cfg) evs /\ loop_ended r0 evs
    /\ log s' = tail ++ log s0 /\ Forall outside_loop tail
    /\ (r0 = Fuel -> r = Fuel /\ tail = []).
Proof.
  intros Hs. unfold main_try, try_finally, try_except.
  destruct (while_true fuel (iteration h) s) as [r0 s0] eqn:Hloop.
  destruct (while_true_spec _ _ _ _ Hs Hloop) as (Hg & evs & Hl & Hev & Hend).
  intros Hmain. exists r0, s0, evs.
  destruct r0 as [[]|e|]; [destruct Hend| |].
  - revert Hmain. destruct s0 as [g0 l0]. unfold_monad. repeat run_step.
    all: intros [= <- <-]; cbn [log].
    all: match goal with
         | |- exists tail, _ /\ _ /\ _ /\ _ /\ _ /\ ?new = tail ++ ?old /\ _ =>
             let evs := new_events old new in exists evs
         end.
    all: repeat (split; [first [reflexivity | assumption]|]).
    all: split; [repeat constructor | discriminate].
  - injection Hmain as <- <-. exists []. repeat split; auto.
Qed.

Lemma raised_outcome e :
  outcome_of (Raise e) <> Running /\ outcome_of (Raise e) <> Finished.
Proof. cbn. case_bool_decide; split; discriminate. Qed.

Lemma number_le_zero v : isinstance_int_float v = true -> exists b, le_zero v = Some b.
Proof. destruct v; try discriminate; cbn; eauto. Qed.

(** A run either stops during start-up, before any call of the loop, or
    reaches the [try] statement of line 65 with the configuration
    loaded. *)
Ltac all_outside := repeat (constructor; [split; reflexivity|]); constructor.

Ltac stopped H := apply H; all_outside.

Lemma run_spec fuel out s :
  run h cfg fuel = (out, s) ->
  (Forall outside_loop (log s) /\ out <> Running /\ out <> Finished)
  \/ (exists s0 r, configured cfg s0 /\ Forall outside_loop (log s0)
        /\ main_try h fuel s0 = (r, s) /\ out = outcome_of r).
Proof.
  unfold run. destruct (script h cfg fuel init_state) as [r s1] eqn:Hrun.
  intros [= <- <-]. revert Hrun.
  assert (Hstop : forall e g l, Forall outside_loop l ->
            (Raise e, St g l) = (r, s1) ->
            (Forall outside_loop (log s1)
             /\ outcome_of r <> Running /\ outcome_of r <> Finished)
            \/ (exists s0 r', configured cfg s0 /\ Forall outside_loop (log s0)
                  /\ main_try h fuel s0 = (r', s1) /\ outcome_of r = outcome_of r')).
  { intros e g l Hl [= <- <-]. left. split; [exact Hl|apply raised_outcome]. }
  destruct (decide (platform_system h = "Windows")) as [Hp|Hp].
  2: { rewrite (script_not_windows fuel Hp).
       destruct (respond h 0 platform_error); stopped Hstop. }
  rewrite (script_windows fuel Hp).
  destruct (respond h 0 (Import "winsound")) as [e|].
  { stopped Hstop. }
  unfold bind at 1.
  destruct (isinstance_int_float (INTERVAL_SECONDS cfg)) eqn:Hnum.
  - destruct (number_le_zero _ Hnum) as [[|] Hle].
    + rewrite (input_validation_rejects _ (or_intror Hle)). cbn [length].
      destruct (respond h 1 interval_error); stopped Hstop.
    + rewrite (input_validation_accepts
                 (St (config_globals cfg) [Ev 12 (Import "winsound") None])
                 eq_refl Hnum Hle).
      unfold main. unfold_monad. repeat run_step.
      all: try (stopped Hstop).
      fold (main_try h fuel). intros Hmain.
      right.
      refine (ex_intro _ _ (ex_intro _ r (conj _ (conj _ (conj Hmain eq_refl)))));
        [reflexivity|cbn [log]; all_outside].
  - rewrite (input_validation_rejects _ (or_introl Hnum)). cbn [length].
    destruct (respond h 1 interval_error); stopped Hstop.
Qed.

Lemma play_sound_calls s r s' :
  configured cfg s -> play s = (r, s') ->
  exists evs, log s' = evs ++ log s /\ (sound_calls evs <= 1)%nat.
Proof.
  destruct s as [g l]. unfold configured. cbn [globals]. intros ->.
  unfold_monad. repeat run_step.
  all: intros [= <- <-]; cbn [globals log].
  all: give_events; cbn; lia.
Qed.



(** *** Shutdown *)

Lemma KeyboardInterrupt_not_Exception e :
  is_KeyboardInterrupt e = true -> is_Exception e = false.
Proof. destruct e as [c a]; destruct c; vm_compute; congruence. Qed.

Lemma Exception_not_KeyboardInterrupt e :
  is_Exception e = true -> is_KeyboardInterrupt e = false.
Proof. destruct e as [c a]; destruct c; vm_compute; congruence. Qed.

(** Where a list has one element with a property, it has it at one place. *)
Lemma unique_split {A} (P : A -> Prop) (before : list A) x after :
  Forall (fun a => ~ P a) before -> Forall (fun a => ~ P a) after ->
  forall pre ev post, before ++ x :: after = pre ++ ev :: post -> P ev ->
  pre = before /\ ev = x /\ post = after.
Proof.
  intros Hb Ha. induction Hb as [|b before Hnb _ IH]; intros pre ev post Heq Hev.
  - destruct pre as [|p pre]; cbn in Heq; injection Heq as <- Heq; [auto|].
    rewrite List.Forall_forall in Ha. destruct (Ha ev); [|assumption].
    rewrite Heq. apply in_elt.
  - destruct pre as [|p pre]; cbn in Heq; injection Heq as <- Heq.
    + contradiction.
    + destruct (IH _ _ _ Heq Hev) as (-> & -> & ->). auto.
Qed.

(** The exception that left the loop is the one of the only escaping
    call of the run, and the calls after it are those of the top-level
    handlers. *)
Lemma escape_spec fuel out s pre ev post e :
  run h cfg fuel = (out, s) ->
  trace s = pre ++ ev :: post -> escapes ev -> ev_reply ev = Some e ->
  exists s0 s1 r,
    configured cfg s0
    /\ while_true fuel (iteration h) s0 = (Raise e, s1)
    /\ trace s1 = pre ++ [ev]
    /\ main_try h fuel s0 = (r, s) /\ out = outcome_of r.
Proof.
  intros Hrun Htrace Hesc Hreply.
  assert (Hin : In ev (log s)).
  { apply in_rev. fold (trace s). rewrite Htrace. apply in_elt. }
  assert (Hout : forall l, Forall outside_loop l -> Forall (fun a => ~ escapes a) l).
  { intros l Hl. eapply Forall_impl; [exact Hl|]. intros a [Ha _] [Hb _]. congruence. }
  assert (Hcont : forall l, Forall (fun a => contained a = true) l ->
                            Forall (fun a => ~ escapes a) l).
  { intros l Hl. eapply Forall_impl; [exact Hl|]. intros a Ha [_ Hb]. congruence. }
  destruct (run_spec _ _ _ Hrun) as [[Hall _]|(s0 & r & Hs0 & Hstart & Hmain & ->)].
  { apply Hout in Hall. rewrite List.Forall_forall in Hall. destruct (Hall _ Hin Hesc). }
  destruct (main_try_spec _ _ _ _ Hs0 Hmain)
    as (r0 & s1 & evs & tail & Hloop & _ & Hl1 & _ & Hend & Hl & Htail & Hfuel).
  exists s0, s1, r.
  destruct r0 as [[]|e0|]; [destruct Hend| |].
  - destruct Hend as (x & evs' & -> & Hx & _ & Hevs').
    assert (Htr : trace s = (trace s0 ++ rev evs') ++ x :: rev tail).
    { unfold trace. rewrite Hl, Hl1. cbn [app]. rewrite rev_app_distr. cbn [rev].
      rewrite rev_app_distr, <- !app_assoc. reflexivity. }
    rewrite Htr in Htrace.
    apply (unique_split escapes) in Htrace as (Hpre & Hev & Hpost); [| | |assumption].
    + subst pre ev post. assert (e0 = e) as -> by congruence.
      repeat split; auto. unfold trace. rewrite Hl1. cbn [app rev].
      rewrite rev_app_distr. reflexivity.
    + apply Forall_app_2; [apply Hout|apply Hcont]; apply Forall_rev; assumption.
    + apply Hout, Forall_rev. assumption.
  - destruct (Hfuel eq_refl) as [-> ->]. cbn in Hend.
    assert (Hno : Forall (fun a => ~ escapes a) (log s)).
    { rewrite Hl, Hl1. cbn [app]. apply Forall_app_2; [apply Hcont|apply Hout]; assumption. }
    rewrite List.Forall_forall in Hno. destruct (Hno _ Hin Hesc).
Qed.

Lemma main_try_interrupted fuel s0 s1 e :
  while_true fuel (iteration h) s0 = (Raise e, s1) ->
  is_KeyboardInterrupt e = true ->
  main_try h fuel s0 =
    (match respond h (length (log s1)) stopped_by_user,
           respond h (S (length (log s1))) exiting with
     | _, Some e' => Raise e'
     | Some e', None => Raise e'
     | None, None => Ret tt
     end,
     St (globals s1)
        (Ev 79 exiting (respond h (S (length (log s1))) exiting)
         :: Ev 74 stopped_by_user (respond h (length (log s1)) stopped_by_user)
         :: log s1)).
Proof.
  intros Hloop Hki. unfold main_try, try_finally, try_except. rewrite Hloop.
  cbn [find_handler]. unfold is_KeyboardInterrupt in Hki. rewrite Hki.
  destruct s1 as [g1 l1]. unfold print, host_call. cbn [log globals length].
  fold stopped_by_user. fold exiting.
  destruct (respond h (length l1) stopped_by_user);
    cbn [log globals length];
    destruct (respond h (S (length l1)) exiting); reflexivity.
Qed.

Lemma main_try_failed fuel s0 s1 e :
  while_true fuel (iteration h) s0 = (Raise e, s1) ->
  is_Exception e = true ->
  respond h (length (log s1)) unexpected_error = None ->
  main_try h fuel s0 =
    (match respond h (S (length (log s1))) (error_details h e),
           respond h (S (S (length (log s1)))) exiting with
     | _, Some e' => Raise e'
     | Some e', None => Raise e'
     | None, None => Ret tt
     end,
     St (globals s1)
        (Ev 79 exiting (respond h (S (S (length (log s1)))) exiting)
         :: Ev 77 (error_details h e) (respond h (S (length (log s1))) (error_details h e))
         :: Ev 76 unexpected_error None
         :: log s1)).
Proof.
  intros Hloop Hexc H76. unfold main_try, try_finally, try_except. rewrite Hloop.
  cbn [find_handler]. pose proof (Exception_not_KeyboardInterrupt _ Hexc) as Hki.
  unfold is_KeyboardInterrupt in Hki. unfold is_Exception in Hexc. rewrite Hki, Hexc.
  destruct s1 as [g1 l1]. unfold print, bind, host_call. cbn [log globals length] in *.
  fold unexpected_error. fold (error_details h e). fold exiting. rewrite H76.
  cbn [log globals length].
  destruct (respond h (S (length l1)) (error_details h e));
    cbn [log globals length];
    destruct (respond h (S (S (length l1))) exiting); reflexivity.
Qed.

(** C2. Whenever a call made by the loop is interrupted, be it the
    sleep between two iterations, a sound call or a print, the only
    calls the program makes afterwards are the two prints of lines 74
    and 79: the "Stopped by User" message, then "Exiting.".  No sound
    call follows, and once both messages are out the module has run to
    its end: the process exits with status zero. *)
Theorem interrupt_shutdown fuel out s pre ev post e :
  run h cfg fuel = (out, s) ->
  trace s = pre ++ ev :: post ->
  in_loop (ev_line ev) = true ->
  ev_reply ev = Some e ->
  is_KeyboardInterrupt e = true ->
  post = [Ev 74 stopped_by_user (respond h (S (length pre)) stopped_by_user);
          Ev 79 exiting (respond h (S (S (length pre))) exiting)]
  /\ sound_calls post = 0%nat
  /\ (respond h (S (length pre)) stopped_by_user = None ->
      respond h (S (S (length pre))) exiting = None ->
      out = Finished /\ exit_status out = Some 0).
Proof.
  intros Hrun Htrace Hline Hreply Hki.
  assert (Hesc : escapes ev).
  { split; [assumption|]. unfold contained. rewrite Hreply.
    rewrite (KeyboardInterrupt_not_Exception _ Hki). apply andb_false_r. }
  destruct (escape_spec _ _ _ _ _ _ _ Hrun Htrace Hesc Hreply)
    as (s0 & s1 & r & Hs0 & Hloop & Hs1 & Hmain & ->).
  rewrite (main_try_interrupted _ _ _ _ Hloop Hki) in Hmain.
  assert (Hlen : length (log s1) = S (length pre)).
  { rewrite <- length_rev. fold (trace s1). rewrite Hs1, length_app. cbn. lia. }
  rewrite Hlen in Hmain. injection Hmain as <- <-.
  assert (Hpost : post = [Ev 74 stopped_by_user (respond h (S (length pre)) stopped_by_user);
                          Ev 79 exiting (respond h (S (S (length pre))) exiting)]).
  { unfold trace in Htrace, Hs1. cbn [log rev] in Htrace. rewrite Hs1 in Htrace.
    rewrite <- !app_assoc in Htrace. cbn [app] in Htrace.
    apply app_inv_head in Htrace. injection Htrace as <-. reflexivity. }
  split; [exact Hpost|]. split; [rewrite Hpost; reflexivity|].
  intros -> ->. split; reflexivity.
Qed.

(** C5, as the code has it. A failure of class [Exception] that the
    handlers of the playback function do not take (it comes from a call
    outside their [try] block: the wait step, or a handler's own print)
    leaves the loop and is caught at line 75: the program prints the
    "Unexpected Error" line, the details of that failure, and the same
    final "Exiting.", makes no other call, and then the module has run
    to its end, so the process exits with status zero, the status of a
    user interrupt. *)
Theorem unexpected_failure_shutdown fuel out s pre ev post e :
  run h cfg fuel = (out, s) ->
  trace s = pre ++ ev :: post ->
  in_loop (ev_line ev) = true ->
  in_try_block (ev_line ev) = false ->
  ev_reply ev = Some e ->
  is_Exception e = true ->
  respond h (S (length pre)) unexpected_error = None ->
  respond h (S (S (length pre))) (error_details h e) = None ->
  respond h (S (S (S (length pre)))) exiting = None ->
  post = [Ev 76 unexpected_error None; Ev 77 (error_details h e) None;
          Ev 79 exiting None]
  /\ out = Finished /\ exit_status out = Some 0.
Proof.
  intros Hrun Htrace Hline Htry Hreply Hexc H76 H77 H79.
  assert (Hesc : escapes ev).
  { split; [assumption|]. unfold contained. rewrite Hreply, Htry. reflexivity. }
  destruct (escape_spec _ _ _ _ _ _ _ Hrun Htrace Hesc Hreply)
    as (s0 & s1 & r & Hs0 & Hloop & Hs1 & Hmain & ->).
  assert (Hlen : length (log s1) = S (length pre)).
  { rewrite <- length_rev. fold (trace s1). rewrite Hs1, length_app. cbn. lia. }
  rewrite (main_try_failed _ _ _ _ Hloop Hexc) in Hmain by (rewrite Hlen; exact H76).
  rewrite Hlen, H77, H79 in Hmain. injection Hmain as <- <-.
  split; [|split; reflexivity].
  unfold trace in Htrace, Hs1. cbn [log rev] in Htrace. rewrite Hs1 in Htrace.
  rewrite <- !app_assoc in Htrace. cbn [app] in Htrace.
  apply app_inv_head in Htrace. injection Htrace as <-. reflexivity.
Qed.

(** *** Containment *)





(** *** One iteration *)

(** The configured mode has one primitive, and a playback whose clock
    and status lines answer calls it, then reports its failure if it
    raised one of class [Exception]. *)
Lemma attempt_shape :
  exists l1 resource l2 primitive,
    is_sound primitive = true /\ In l1 [43; 46; 50]%nat /\
    forall s, configured cfg s ->
      quiet_at h (length (log s)) ->
      quiet_at h (S (length (log s))) ->
      quiet_at h (S (S (length (log s)))) ->
      let attempt reply :=
        [Ev l2 primitive reply; Ev l1 (Print resource) None;
         Ev 41 (playing_line h (length (log s))) None; Ev 41 DatetimeNow None] in
      (respond h (S (S (S (length (log s))))) primitive = None ->
       play s = (Ret tt, St (globals s) (attempt None ++ log s)))
      /\ (forall e,
            respond h (S (S (S (length (log s))))) primitive = Some e ->
            is_Exception e = true ->
            quiet_at h (S (S (S (S (length (log s)))))) ->
            (is_RuntimeError e = true -> quiet_at h (S (S (S (S (S (length (log s)))))))) ->
            play s = (Ret tt, St (globals s)
                                 (rev (failure_lines h e) ++ attempt (Some e) ++ log s)))
      /\ (exists r s' after,
            play s = (r, s')
            /\ log s' = after
                 ++ attempt (respond h (S (S (S (length (log s))))) primitive) ++ log s).
Proof.
  destruct (truthy (USE_ALIAS cfg)) eqn:Halias; [|destruct (truthy (USE_WAV cfg)) eqn:Hwav].
  1: exists 43%nat, ("(Using alias: " +:+ py_str h (SOUND_ALIAS cfg) +:+ ")"), 44%nat,
       (PlaySound (SOUND_ALIAS cfg) (SND_ALIAS h)).
  2: exists 46%nat, ("(Using WAV file: " +:+ py_str h (WAV_FILE cfg) +:+ ")"), 48%nat,
       (PlaySound (WAV_FILE cfg) (Z.lor (SND_FILENAME h) (SND_ASYNC h))).
  3: exists 50%nat, ("(Using Beep: " +:+ py_str h (BEEP_FREQUENCY cfg) +:+ " Hz, "
                      +:+ py_str h (BEEP_DURATION cfg) +:+ " ms)"), 51%nat,
       (Beep (BEEP_FREQUENCY cfg) (BEEP_DURATION cfg)).
  all: split; [reflexivity|]; split; [cbn; tauto|].
  all: intros [g l]; unfold configured; cbn [globals log]; intros -> H0 H1 H2.
  all: split; [|split].
  all: try (intros H3; unfold_monad; repeat run_step; reflexivity).
  all: try (intros e H3 Hexc H4 H5; unfold failure_lines, failure_report, is_Exception in *;
            destruct (is_RuntimeError e) eqn:Hre; unfold is_RuntimeError in Hre;
            [specialize (H5 eq_refl)|clear H5];
            unfold_monad; repeat run_step; reflexivity).
  all: unfold_monad; repeat run_step.
  all: eexists _, _; unfold playing_line; cbn [log app];
    match goal with
    | |- exists after, (_, St _ ?new) = _ /\ _ = _ ++ ?old =>
        let evs := new_events old new in exists evs
    end; split; reflexivity.
Qed.

Lemma wait_step_quiet s :
  configured cfg s ->
  quiet_at h (length (log s)) ->
  quiet_at h (S (length (log s))) ->
  wait_step h s =
    (Ret tt, St (globals s)
                (Ev 72 (Sleep (INTERVAL_SECONDS cfg)) None
                 :: Ev 71 (waiting_line h cfg) None :: log s)).
Proof.
  destruct s as [g l]. unfold configured. cbn [globals log]. intros -> H0 H1.
  unfold_monad. repeat run_step. reflexivity.
Qed.

Lemma play_starts s :
  configured cfg s ->
  exists r s' more reply,
    play s = (r, s')
    /\ log s' = more ++ Ev 41 DatetimeNow reply :: log s
    /\ reply = respond h (length (log s)) DatetimeNow.
Proof.
  destruct s as [g l]. unfold configured. cbn [globals log]. intros ->.
  unfold_monad. repeat run_step.
  all: eexists _, _; cbn [log].
  all: match goal with
       | H : respond h (length ?old) DatetimeNow = ?reply
         |- exists more _, (_, St _ ?new) = _ /\ _ =>
           let evs := new_events (Ev 41 DatetimeNow reply :: old) new in
           exists evs, reply
       end.
  all: repeat split; auto.
Qed.

(** Whatever follows a playback in the loop comes after its calls. *)
Lemma loop_after_play fuel s r1 s1 r2 s2 :
  configured cfg s -> play s = (r1, s1) ->
  while_true (S fuel) (iteration h) s = (r2, s2) ->
  exists evs, log s2 = evs ++ log s1.
Proof.
  intros Hs Hplay. cbn [while_true]. unfold bind at 1. unfold iteration at 1. unfold bind at 1.
  rewrite Hplay.
  assert (Hs1 : configured cfg s1).
  { unfold configured in *. rewrite (keeps_play _ _ _ Hplay). assumption. }
  destruct r1 as [[]|e|]; [|intros [= _ <-]; exists []; reflexivity..].
  destruct (wait_step h s1) as [rw sw] eqn:Hwait.
  destruct (wait_step_spec _ _ _ Hs1 Hwait) as (Hgw & evsw & Hlw & _).
  destruct rw as [[]|e|]; [|intros [= _ <-]; exists evsw; assumption..].
  intros Hloop.
  assert (Hsw : configured cfg sw) by (unfold configured in *; congruence).
  destruct (while_true_spec _ _ _ _ Hsw Hloop) as (_ & evs & Hl & _).
  exists (evs ++ evsw). rewrite Hl, Hlw. apply app_assoc.
Qed.

(** C1. An iteration whose sound call raises an exception of class
    [Exception] (the clock, the prints and the sleep answering) reports
    the failure on the console, prints the "Waiting" line and sleeps,
    and returns to the loop, which goes on from there: its next call is
    the clock read that opens the next playback, and when the status
    lines of that playback answer too, the sound primitive is called
    again. *)
Theorem playback_failure_isolated fuel s e :
  configured cfg s ->
  quiet_at h (length (log s)) ->
  quiet_at h (S (length (log s))) ->
  quiet_at h (S (S (length (log s)))) ->
  sound_fails_at h (S (S (S (length (log s))))) e ->
  is_Exception e = true ->
  (forall j, (S (S (S (length (log s)))) < j
              <= S (S (S (length (log s)))) + length (failure_lines h e) + 2)%nat ->
             quiet_at h j) ->
  exists l1 resource l2 primitive s1,
    is_sound primitive = true
    /\ iteration h s = (Ret tt, s1)
    /\ trace s1 =
         trace s
         ++ [Ev 41 DatetimeNow None; Ev 41 (playing_line h (length (log s))) None;
             Ev l1 (Print resource) None; Ev l2 primitive (Some e)]
         ++ failure_lines h e
         ++ [Ev 71 (waiting_line h cfg) None; Ev 72 (Sleep (INTERVAL_SECONDS cfg)) None]
    /\ while_true (S fuel) (iteration h) s = while_true fuel (iteration h) s1
    /\ exists r2 s2 more,
         while_true (S (S fuel)) (iteration h) s = (r2, s2)
         /\ trace s2 =
              trace s1 ++ Ev 41 DatetimeNow (respond h (length (log s1)) DatetimeNow) :: more
         /\ (quiet_at h (length (log s1)) ->
             quiet_at h (S (length (log s1))) ->
             quiet_at h (S (S (length (log s1)))) ->
             exists more',
               more = Ev 41 (playing_line h (length (log s1))) None
                      :: Ev l1 (Print resource) None
                      :: Ev l2 primitive (respond h (S (S (S (length (log s1))))) primitive)
                      :: more').
Proof.
  intros Hs H0 H1 H2 H3 Hexc Hrange.
  destruct attempt_shape as (l1 & resource & l2 & primitive & Hsound & _ & Hshape).
  exists l1, resource, l2, primitive.
  destruct (Hshape s Hs H0 H1 H2) as (_ & Hfail & _).
  assert (Hlen : (1 <= length (failure_lines h e))%nat) by (cbn; lia).
  specialize (Hfail e (H3 _ Hsound) Hexc ltac:(apply Hrange; lia)
                ltac:(intros; apply Hrange; lia)).
  set (sp := St (globals s) _) in Hfail.
  assert (Hlp : length (log sp) = (length (failure_lines h e) + 4 + length (log s))%nat).
  { subst sp. cbn [log]. rewrite length_app, length_rev. cbn [length app]. lia. }
  assert (Hsp : configured cfg sp) by exact Hs.
  assert (Hwait := wait_step_quiet sp Hsp).
  rewrite Hlp in Hwait.
  specialize (Hwait ltac:(apply Hrange; lia) ltac:(apply Hrange; lia)).
  set (s1 := St (globals sp) _) in Hwait.
  assert (Hit : iteration h s = (Ret tt, s1)).
  { unfold iteration, bind. rewrite Hfail, Hwait. reflexivity. }
  assert (Hs1 : configured cfg s1) by exact Hs.
  assert (Hgo : forall n, while_true (S n) (iteration h) s = while_true n (iteration h) s1).
  { intros n. cbn [while_true]. unfold bind. rewrite Hit. reflexivity. }
  exists s1. split; [exact Hsound|]. split; [exact Hit|]. split; [|split; [apply Hgo|]].
  { unfold trace. subst s1 sp. cbn [log rev].
    rewrite !rev_app_distr, rev_involutive. cbn [rev app].
    rewrite <- !app_assoc. reflexivity. }
  rewrite Hgo.
  destruct (play_starts s1 Hs1) as (r1 & sq & more0 & reply & Hplay & Hlq & ->).
  destruct (while_true (S fuel) (iteration h) s1) as [r2 s2] eqn:Hloop.
  destruct (loop_after_play _ _ _ _ _ _ Hs1 Hplay Hloop) as (evs & Hl2).
  exists r2, s2, (rev more0 ++ rev evs). split; [reflexivity|]. split.
  { unfold trace. rewrite Hl2, Hlq, !rev_app_distr. cbn [rev].
    rewrite <- !app_assoc. reflexivity. }
  intros Q0 Q1 Q2.
  destruct (Hshape s1 Hs1 Q0 Q1 Q2) as (_ & _ & (r1' & sq' & after & Hplay' & Hlq')).
  rewrite Hplay in Hplay'. injection Hplay' as <- <-.
  rewrite Hlq in Hlq'. cbn [app] in Hlq'.
  change (more0 ++ Ev 41 DatetimeNow (respond h (length (log s1)) DatetimeNow) :: log s1)
    with (more0 ++ [Ev 41 DatetimeNow (respond h (length (log s1)) DatetimeNow)] ++ log s1)
    in Hlq'.
  rewrite (Q0 DatetimeNow eq_refl) in Hlq'.
  replace (after ++ Ev l2 primitive (respond h (S (S (S (length (log s1))))) primitive)
             :: Ev l1 (Print resource) None
             :: Ev 41 (playing_line h (length (log s1))) None
             :: Ev 41 DatetimeNow None :: log s1)
    with ((after ++ [Ev l2 primitive (respond h (S (S (S (length (log s1))))) primitive);
                     Ev l1 (Print resource) None;
                     Ev 41 (playing_line h (length (log s1))) None])
          ++ [Ev 41 DatetimeNow None] ++ log s1) in Hlq'
    by (rewrite <- app_assoc; reflexivity).
  rewrite !app_assoc in Hlq'. apply app_inv_tail in Hlq'.
  apply app_inj_tail in Hlq' as [-> _].
  exists (rev after ++ rev evs). rewrite rev_app_distr. cbn [rev app]. reflexivity.
Qed.


(** *** The cycle *)








(** *** One primitive per playback *)



End Proofs.


(** ** The theorems at work *)

(** One period of the shipped configuration on a calm host. *)
Example shipped_first_period :
  run calm_host shipped 1 =
    (Running,
     St (config_globals shipped)
        (rev
           [Ev 12 (Import "winsound") None;
            Ev 60 (Print "--- Windows Notification Script Started (using winsound) ---") None;
            Ev 61 (Print "Triggering sound every 300 seconds.") None;
            Ev 62 (Print "Press Ctrl+C to stop.") None;
            Ev 63 (Print "-------------------------------------------------------") None;
            Ev 41 DatetimeNow None;
            Ev 41 (Print "2024-03-15 09:00:05 - Playing notification...") None;
            Ev 43 (Print "(Using alias: SystemAsterisk)") None;
            Ev 44 (PlaySound (PyStr "SystemAsterisk") 65536) None;
            Ev 71 (Print "Waiting for 300 seconds...") None;
            Ev 72 (Sleep (PyInt 300)) None])).
Proof. vm_compute. reflexivity. Qed.

(** The tone, with the device busy: the failure is reported and the wait
    step still runs. *)
Example busy_tone_iteration :
  let cfg := Config (PyInt 5) (PyStr "SystemAsterisk") (PyBool false)
                    (PyInt 1000) (PyInt 300) (PyStr "notify.wav") (PyBool false) in
  iteration busy_host (loaded cfg) =
    (Ret tt,
     St (config_globals cfg)
        (rev
           [Ev 41 DatetimeNow None;
            Ev 41 (Print "2024-03-15 09:00:00 - Playing notification...") None;
            Ev 50 (Print "(Using Beep: 1000 Hz, 300 ms)") None;
            Ev 51 (Beep (PyInt 1000) (PyInt 300)) (Some device_busy);
            Ev 53 (Print (nl +:+ "Error playing sound with winsound: Failed to play sound"))
               None;
            Ev 54 (Print "Check if the sound alias/file exists or if another sound is playing.")
               None;
            Ev 71 (Print "Waiting for 5 seconds...") None;
            Ev 72 (Sleep (PyInt 5)) None])).
Proof. vm_compute. reflexivity. Qed.

(** A string is no interval. *)
Example interval_as_text :
  let (out, s) := run calm_host (with_interval (PyStr "300")) 1 in
  out = Exited (PyInt 1)
  /\ trace s =
       [Ev 12 (Import "winsound") None;
        Ev 33 (Print "Error: INTERVAL_SECONDS must be a positive number. Found: 300") None].
Proof. vm_compute. split; reflexivity. Qed.


Lemma quiet_busy i : quiet_at busy_host i.
Proof. intros c Hc. cbn. rewrite Hc. reflexivity. Qed.


Lemma playback_failure_isolated_witness :
  configured shipped (loaded shipped)
  /\ sound_fails_at busy_host 3 device_busy
  /\ is_Exception device_busy = true
  /\ exists s1,
       iteration busy_host (loaded shipped) = (Ret tt, s1)
       /\ while_true 1 (iteration busy_host) (loaded shipped)
          = while_true 0 (iteration busy_host) s1.
Proof.
  assert (Hfail : sound_fails_at busy_host 3 device_busy).
  { intros c Hc. cbn. rewrite Hc. reflexivity. }
  split; [reflexivity|]. split; [exact Hfail|]. split; [reflexivity|].
  destruct (playback_failure_isolated busy_host shipped 0 (loaded shipped) device_busy
              eq_refl (quiet_busy _) (quiet_busy _) (quiet_busy _) Hfail eq_refl
              (fun j _ => quiet_busy j))
    as (l1 & resource & l2 & primitive & s1 & _ & Hit & _ & Hgo & _).
  exists s1. split; assumption.
Defined.

Lemma interrupt_shutdown_witness :
  let s := snd (run interrupting_host shipped 1) in
  let ev := Ev 72 (Sleep (PyInt 300)) (Some ctrl_c) in
  trace s = firstn 10 (trace s) ++ ev :: skipn 11 (trace s)
  /\ skipn 11 (trace s) = [Ev 74 stopped_by_user None; Ev 79 exiting None]
  /\ fst (run interrupting_host shipped 1) = Finished
  /\ exit_status (fst (run interrupting_host shipped 1)) = Some 0.
Proof.
  intros s ev.
  assert (Htrace : trace s = firstn 10 (trace s) ++ ev :: skipn 11 (trace s))
    by (vm_compute; reflexivity).
  split; [exact Htrace|].
  destruct (interrupt_shutdown interrupting_host shipped 1
              (fst (run interrupting_host shipped 1)) s
              (firstn 10 (trace s)) ev (skipn 11 (trace s)) ctrl_c)
    as (Hpost & _ & Hout);
    [vm_compute; reflexivity | exact Htrace | reflexivity | reflexivity | reflexivity |].
  split; [exact Hpost|]. apply Hout; reflexivity.
Defined.


Lemma platform_guard_witness :
  platform_system linux_host <> "Windows"
  /\ trace (snd (run linux_host shipped 1)) = [Ev 8 platform_error None]
  /\ globals (snd (run linux_host shipped 1)) = ∅
  /\ exit_status (fst (run linux_host shipped 1)) = Some 1.
Proof.
  assert (Hp : platform_system linux_host <> "Windows") by discriminate.
  split; [exact Hp|].
  destruct (platform_guard linux_host shipped 1
              (fst (run linux_host shipped 1)) (snd (run linux_host shipped 1)) Hp)
    as (Htrace & Hg & _ & _ & Hout); [vm_compute; reflexivity|].
  split; [exact Htrace|]. split; [exact Hg|]. apply Hout. reflexivity.
Defined.

Lemma unexpected_failure_shutdown_witness :
  let cfg := with_interval (PyFloat S754_nan) in
  let s := snd (run sleepless_host cfg 1) in
  let ev := Ev 72 (Sleep (PyFloat S754_nan)) (Some sleep_rejected) in
  trace s = firstn 10 (trace s) ++ ev :: skipn 11 (trace s)
  /\ is_Exception sleep_rejected = true
  /\ skipn 11 (trace s)
     = [Ev 76 unexpected_error None; Ev 77 (error_details sleepless_host sleep_rejected) None;
        Ev 79 exiting None]
  /\ exit_status (fst (run sleepless_host cfg 1)) = Some 0.
Proof.
  intros cfg s ev.
  assert (Htrace : trace s = firstn 10 (trace s) ++ ev :: skipn 11 (trace s))
    by (vm_compute; reflexivity).
  split; [exact Htrace|]. split; [reflexivity|].
  destruct (unexpected_failure_shutdown sleepless_host cfg 1
              (fst (run sleepless_host cfg 1)) s
              (firstn 10 (trace s)) ev (skipn 11 (trace s)) sleep_rejected)
    as (Hpost & _ & Hout);
    [vm_compute; reflexivity | exact Htrace | reflexivity | reflexivity | reflexivity
    | reflexivity | reflexivity | reflexivity | reflexivity |].
  split; [exact Hpost|exact Hout].
Defined.

(** C5 as the specification states it fails: a run in which [time.sleep]
    raises a [ValueError] (the interval is NaN, which passes the
    validation of line 32) is caught at line 75 and ends with the exit
    status of a run stopped by Ctrl+C, zero. *)
Lemma unexpected_failure_exit_status_counterexample :
  let failed := run sleepless_host (with_interval (PyFloat S754_nan)) 1 in
  let interrupted := run interrupting_host shipped 1 in
  In (Ev 72 (Sleep (PyFloat S754_nan)) (Some sleep_rejected)) (trace (snd failed))
  /\ In (Ev 76 unexpected_error None) (trace (snd failed))
  /\ In (Ev 74 stopped_by_user None) (trace (snd interrupted))
  /\ exit_status (fst failed) = Some 0
  /\ exit_status (fst failed) = exit_status (fst interrupted).
Proof.
  vm_compute. repeat split; tauto.
Qed.



Lemma configuration_is_immutable_witness :
  let s := snd (run calm_host shipped 2) in
  globals s = ∅ \/
  (globals s = config_globals shipped /\
   forall name v, config_globals shipped !! name = Some v -> load name s = (Ret v, s)).
Proof.
  intros s.
  destruct (configuration_is_immutable calm_host shipped) as (_ & _ & _ & _ & _ & Hrun).
  apply (Hrun 2%nat (fst (run calm_host shipped 2))). vm_compute. reflexivity.
Defined.



(** * Further properties of the script *)

Section Further.

Variable h : host.
Variable cfg : config.

Ltac lookups :=
  rewrite ?lookup_INTERVAL_SECONDS, ?lookup_SOUND_ALIAS, ?lookup_USE_ALIAS,
    ?lookup_BEEP_FREQUENCY, ?lookup_BEEP_DURATION, ?lookup_WAV_FILE, ?lookup_USE_WAV.

Ltac unfold_monad :=
  cbv beta iota zeta delta
    [play_windows_notification wait_step
     try_except try_finally find_handler datetime_now print bind load host_call
     ret raise when sys_exit globals log fst snd].

Ltac known_reply :=
  match goal with
  | H : quiet_at h ?i |- context [respond h ?i ?c] => rewrite (H c eq_refl)
  | H : sound_fails_at h ?i _ |- context [respond h ?i ?c] => rewrite (H c eq_refl)
  | H : respond h ?i ?c = _ |- context [respond h ?i ?c] => rewrite H
  | H : truthy ?v = _ |- context [truthy ?v] => rewrite H
  | H : issubclass ?c ?d = _ |- context [issubclass ?c ?d] => rewrite H
  end.

Ltac run_step :=
  first
    [ progress lookups
    | progress cbn [length]
    | known_reply
    | match goal with
      | |- context [respond h ?i ?c] =>
          let E := fresh "Hr" in destruct (respond h i c) eqn:E
      | |- context [if truthy ?v then _ else _] =>
          let E := fresh "Ht" in destruct (truthy v) eqn:E
      | |- context [if issubclass ?c ?d then _ else _] =>
          let E := fresh "Hc" in destruct (issubclass c d) eqn:E
      end
    | progress unfold_monad ].

Ltac new_events old new :=
  match new with
  | old => constr:(@nil event)
  | ?ev :: ?rest => let evs := new_events old rest in constr:(ev :: evs)
  end.

(** *** The input validation, lines 31-35 *)




(** *** Start-up and shutdown in full *)

(** Reversing a log into a trace. *)
Ltac rev_norm :=
  repeat first [ rewrite rev_app_distr | rewrite rev_involutive | progress cbn [rev app] ];
  rewrite <- ?app_assoc; cbn [app].

Ltac startup_events :=
  repeat (constructor; [split; [cbn; tauto|reflexivity]|]); constructor.

Ltac stop_here H :=
  match goal with
  | |- (_, St _ (?last :: ?rest)) = _ -> _ =>
      apply (H _ last rest);
        [cbn; tauto|startup_events|repeat (constructor; [repeat split|]); constructor]
  end.

(** A run stops before the [try] statement, at its last call, or it
    reaches that statement after the import and the whole banner. *)
Lemma run_startup_calls fuel out s :
  run h cfg fuel = (out, s) ->
  (exists last rest,
     log s = last :: rest /\ before_try last
     /\ Forall (fun ev => before_try ev /\ ev_reply ev = None) rest
     /\ out = match ev_reply last with
              | Some e => outcome_of (Raise e)
              | None => Exited (PyInt 1)
              end
     /\ Forall (fun ev => announcement h ev = None /\ is_sound (ev_call ev) = false
                          /\ is_sleep (ev_call ev) = false) (last :: rest))
  \/ (exists r,
        main_try h fuel (St (config_globals cfg) (rev (banner h cfg))) = (r, s)
        /\ out = outcome_of r).
Proof.
  unfold run. destruct (script h cfg fuel init_state) as [r s1] eqn:Hrun.
  intros [= <- <-]. revert Hrun.
  assert (Hstop : forall g last rest,
            before_try last ->
            Forall (fun ev => before_try ev /\ ev_reply ev = None) rest ->
            Forall (fun ev => announcement h ev = None /\ is_sound (ev_call ev) = false
                              /\ is_sleep (ev_call ev) = false) (last :: rest) ->
            (match ev_reply last with
             | Some e => Raise e
             | None => Raise (PyExc SystemExit (PyInt 1))
             end, St g (last :: rest)) = (r, s1) ->
            (exists last rest,
               log s1 = last :: rest /\ before_try last
               /\ Forall (fun ev => before_try ev /\ ev_reply ev = None) rest
               /\ outcome_of r = match ev_reply last with
                                 | Some e => outcome_of (Raise e)
                                 | None => Exited (PyInt 1)
                                 end
               /\ Forall (fun ev => announcement h ev = None
                                    /\ is_sound (ev_call ev) = false
                                    /\ is_sleep (ev_call ev) = false) (last :: rest))
            \/ (exists r',
                  main_try h fuel (St (config_globals cfg) (rev (banner h cfg))) = (r', s1)
                  /\ outcome_of r = outcome_of r')).
  { intros g last rest Hlast Hrest Hcalls [= <- <-]. left. exists last, rest.
    repeat split; auto. destruct (ev_reply last); reflexivity. }
  destruct (decide (platform_system h = "Windows")) as [Hp|Hp].
  2: { rewrite (script_not_windows h cfg fuel Hp).
       destruct (respond h 0 platform_error); stop_here Hstop. }
  rewrite (script_windows h cfg fuel Hp).
  destruct (respond h 0 (Import "winsound")) as [e|].
  { stop_here Hstop. }
  unfold bind at 1.
  destruct (isinstance_int_float (INTERVAL_SECONDS cfg)) eqn:Hnum.
  - destruct (number_le_zero _ Hnum) as [[|] Hle].
    + rewrite (input_validation_rejects h cfg _ (or_intror Hle)). cbn [length].
      destruct (respond h 1 (interval_error h cfg)); stop_here Hstop.
    + rewrite (input_validation_accepts h cfg
                 (St (config_globals cfg) [Ev 12 (Import "winsound") None])
                 eq_refl Hnum Hle).
      unfold main. unfold_monad. repeat run_step.
      all: try (stop_here Hstop).
      fold (main_try h fuel). intros Hmain. right. exists r. split; [exact Hmain|reflexivity].
  - rewrite (input_validation_rejects h cfg _ (or_introl Hnum)). cbn [length].
    destruct (respond h 1 (interval_error h cfg)); stop_here Hstop.
Qed.

Lemma run_startup fuel out s :
  run h cfg fuel = (out, s) ->
  (exists last rest,
     log s = last :: rest /\ before_try last
     /\ Forall (fun ev => before_try ev /\ ev_reply ev = None) rest
     /\ out = match ev_reply last with
              | Some e => outcome_of (Raise e)
              | None => Exited (PyInt 1)
              end)
  \/ (exists r,
        main_try h fuel (St (config_globals cfg) (rev (banner h cfg))) = (r, s)
        /\ out = outcome_of r).
Proof.
  intros [(last & rest & Hl & Hlast & Hrest & Hout & _)|Hmain]%run_startup_calls.
  - left. exists last, rest. auto.
  - right. exact Hmain.
Qed.

(** The [try] statement of line 65: the loop, then the handler that takes
    the exception which left it, then the [finally]. *)
Lemma main_try_cases fuel s r s' :
  configured cfg s -> main_try h fuel s = (r, s') ->
  exists r0 s0 evs,
    while_true fuel (iteration h) s = (r0, s0)
    /\ log s0 = evs ++ log s /\ Forall (loop_event h cfg) evs /\ loop_ended r0 evs
    /\ match r0 with
       | Ret _ => False
       | Fuel => r = Fuel /\ s' = s0
       | Raise e =>
           exists part r1,
             shutdown h e (length (log s0)) part r1
             /\ log s' = Ev 79 exiting (respond h (length (part ++ log s0)) exiting)
                         :: part ++ log s0
             /\ r = match respond h (length (part ++ log s0)) exiting with
                    | Some e' => Raise e'
                    | None => r1
                    end
       end.
Proof.
  intros Hs. unfold main_try, try_finally, try_except.
  destruct (while_true fuel (iteration h) s) as [r0 s0] eqn:Hloop.
  destruct (while_true_spec h cfg _ _ _ _ Hs Hloop) as (Hg & evs & Hl & Hev & Hend).
  intros Hmain. exists r0, s0, evs. repeat (split; [first [reflexivity|assumption]|]).
  destruct r0 as [[]|e|]; [destruct Hend| |injection Hmain as <- <-; auto].
  revert Hmain. destruct s0 as [g0 l0]. cbn [find_handler log].
  unfold shutdown, is_KeyboardInterrupt, is_Exception.
  destruct (issubclass (exn_class e) KeyboardInterrupt) eqn:Hki;
    [|destruct (issubclass (exn_class e) Exception) eqn:Hexc].
  - unfold_monad. fold stopped_by_user. fold exiting.
    exists [Ev 74 stopped_by_user (respond h (length l0) stopped_by_user)].
    exists (match respond h (length l0) stopped_by_user with
            | None => Ret tt | Some e' => Raise e' end).
    split; [left; auto|]. revert Hmain.
    destruct (respond h (length l0) stopped_by_user); cbn [app length];
      destruct (respond h (S (length l0)) exiting); intros [= <- <-]; auto.
  - unfold_monad. fold unexpected_error. fold (error_details h e). fold exiting.
    destruct (respond h (length l0) unexpected_error) as [e'|] eqn:H76.
    + exists [Ev 76 unexpected_error (Some e')], (Raise e').
      split; [right; left; auto|]. revert Hmain. cbn [app length].
      destruct (respond h (S (length l0)) exiting); intros [= <- <-]; auto.
    + exists [Ev 77 (error_details h e) (respond h (S (length l0)) (error_details h e));
              Ev 76 unexpected_error None].
      exists (match respond h (S (length l0)) (error_details h e) with
              | None => Ret tt | Some e' => Raise e' end).
      split; [right; left; auto|]. revert Hmain. cbn [app length].
      destruct (respond h (S (length l0)) (error_details h e)); cbn [app length];
        destruct (respond h (S (S (length l0))) exiting); intros [= <- <-]; auto.
  - unfold_monad. fold exiting. exists [], (Raise e).
    split; [right; right; auto|]. revert Hmain. cbn [app length].
    destruct (respond h (length l0) exiting); intros [= <- <-]; auto.
Qed.

(** The three shapes of a run, in the order the calls were made: stopped
    during start-up; still in the loop; or out of the loop by the
    exception of its last call, through a handler and the [finally]. *)
Lemma run_shape fuel out s :
  run h cfg fuel = (out, s) ->
  (exists last rest,
     log s = last :: rest /\ before_try last
     /\ Forall (fun ev => before_try ev /\ ev_reply ev = None) rest
     /\ out = match ev_reply last with
              | Some e => outcome_of (Raise e)
              | None => Exited (PyInt 1)
              end)
  \/ (out = Running
      /\ exists evs, trace s = banner h cfg ++ evs
           /\ Forall (loop_event h cfg) evs
           /\ Forall (fun ev => contained ev = true) evs)
  \/ (exists evs x e part r1,
        let i := length (banner h cfg ++ evs ++ [x]) in
        let reply := respond h (length part + i) exiting in
        trace s = banner h cfg ++ evs ++ [x] ++ rev part ++ [Ev 79 exiting reply]
        /\ Forall (loop_event h cfg) evs /\ loop_event h cfg x
        /\ Forall (fun ev => contained ev = true) evs
        /\ ev_reply x = Some e /\ contained x = false
        /\ shutdown h e i part r1
        /\ out = outcome_of (match reply with Some e' => Raise e' | None => r1 end)).
Proof.
  intros Hrun.
  destruct (run_startup _ _ _ Hrun) as [Hstop|(r & Hmain & ->)]; [left; exact Hstop|].
  right.
  destruct (main_try_cases fuel (St (config_globals cfg) (rev (banner h cfg))) r s
              eq_refl Hmain) as (r0 & s0 & evs & _ & Hl0 & Hev & Hend & Hcase).
  cbn [log] in Hl0.
  destruct r0 as [[]|e|]; [destruct Hcase| |].
  - right. destruct Hend as (x & evs' & -> & Hx & Hcx & Hevs').
    destruct Hcase as (part & r1 & Hshut & Hl & ->).
    apply Forall_cons in Hev as [Hlx Hev].
    assert (Hlen : length (log s0) = length (banner h cfg ++ rev evs' ++ [x])).
    { rewrite Hl0. cbn [app length]. rewrite !length_app, !length_rev. cbn [length]. lia. }
    exists (rev evs'), x, e, part, r1. cbn zeta.
    rewrite <- Hlen. rewrite length_app in Hl. rewrite length_app in *.
    split; [|repeat split; auto using Forall_rev].
    unfold trace. rewrite Hl, Hl0. rev_norm. reflexivity.
  - left. destruct Hcase as [-> ->]. split; [reflexivity|]. exists (rev evs).
    split; [|split; auto using Forall_rev].
    unfold trace. rewrite Hl0, rev_app_distr, rev_involutive. reflexivity.
Qed.

(** Which lines the calls of each part of a run come from. *)
Lemma in_loop_lines l :
  in_loop l = true -> (41 <= l <= 56 \/ 67 <= l <= 72)%nat.
Proof.
  unfold in_loop. rewrite orb_true_iff, !andb_true_iff, !Nat.leb_le. lia.
Qed.

Lemma before_try_lines ev :
  before_try ev -> (ev_line ev <= 33 \/ 60 <= ev_line ev <= 63)%nat.
Proof. unfold before_try. cbn [In]. lia. Qed.

Lemma shutdown_lines e i part r1 :
  shutdown h e i part r1 -> Forall (fun ev => (74 <= ev_line ev <= 77)%nat) part.
Proof.
  intros [(_ & -> & _)|[(_ & _ & Hcase)|(_ & _ & -> & _)]].
  - repeat constructor.
  - destruct (respond h i unexpected_error); destruct Hcase as [-> _]; repeat constructor.
  - constructor.
Qed.

Lemma banner_lines :
  Forall (fun ev => before_try ev /\ ev_reply ev = None) (banner h cfg).
Proof. startup_events. Qed.

Lemma Forall_In {A} (P : A -> Prop) l x : Forall P l -> In x l -> P x.
Proof. rewrite List.Forall_forall. auto. Qed.

(** The call whose exception leaves the loop, and what comes after it. *)
Lemma leaving_call fuel out s pre ev post e :
  run h cfg fuel = (out, s) ->
  trace s = pre ++ ev :: post -> escapes ev -> ev_reply ev = Some e ->
  exists part r1,
    shutdown h e (S (length pre)) part r1
    /\ post = rev part
              ++ [Ev 79 exiting (respond h (length part + S (length pre)) exiting)]
    /\ out = outcome_of (match respond h (length part + S (length pre)) exiting with
                         | Some e' => Raise e'
                         | None => r1
                         end).
Proof.
  intros Hrun Htrace [Hloop Hesc] Hreply.
  assert (Hin : In ev (trace s)) by (rewrite Htrace; apply in_elt).
  assert (Hline := in_loop_lines _ Hloop).
  destruct (run_shape _ _ _ Hrun)
    as [(last & rest & Hl & Hlast & Hrest & _)
       |[(_ & evs & Ht & _ & Hcont)
        |(evs & x & e0 & part & r1 & Ht & _ & _ & Hcont & Hx & _ & Hshut & Hout)]].
  - exfalso. unfold trace in Hin. rewrite Hl in Hin. apply in_rev in Hin.
    destruct Hin as [<-|Hin].
    + apply before_try_lines in Hlast. lia.
    + apply (Forall_In _ _ _ Hrest) in Hin as [Hb%before_try_lines _]. lia.
  - exfalso. rewrite Ht in Hin. apply in_app_or in Hin as [Hin|Hin].
    + apply (Forall_In _ _ _ banner_lines) in Hin as [Hb%before_try_lines _]. lia.
    + apply (Forall_In _ _ _ Hcont) in Hin. congruence.
  - cbn zeta in *. rewrite Ht, app_assoc in Htrace. cbn [app] in Htrace.
    apply (unique_split escapes) in Htrace as (-> & -> & ->).
    + assert (e0 = e) as -> by congruence.
      assert (Hlen : length (banner h cfg ++ evs ++ [x]) = S (length (banner h cfg ++ evs))).
      { rewrite !length_app. cbn [length]. lia. }
      rewrite Hlen in *. exists part, r1. auto.
    + apply Forall_app_2.
      * eapply Forall_impl; [exact banner_lines|].
        intros a [Ha%before_try_lines _] [Hb%in_loop_lines _]. lia.
      * eapply Forall_impl; [exact Hcont|]. intros a Ha [_ Hb]. congruence.
    + apply Forall_app_2.
      * apply Forall_rev. eapply Forall_impl; [exact (shutdown_lines _ _ _ _ Hshut)|].
        intros a Ha [Hb%in_loop_lines _]. cbn in Ha. lia.
      * repeat constructor. intros [Hb%in_loop_lines _]. cbn in Hb. lia.
    + split; assumption.
Qed.

(** *** What the start-up and the shutdown never do *)

(** X4.  An exception that is neither an [Exception] nor a
    [KeyboardInterrupt] ([SystemExit], [GeneratorExit]) and comes from
    a call of the loop is taken by no handler: the only call after it is
    the "Exiting." of the [finally], and that print returning the
    exception reaches the interpreter. *)
Theorem base_exception_passes_through fuel out s pre ev post e :
  run h cfg fuel = (out, s) ->
  trace s = pre ++ ev :: post ->
  in_loop (ev_line ev) = true ->
  ev_reply ev = Some e ->
  is_Exception e = false ->
  is_KeyboardInterrupt e = false ->
  post = [Ev 79 exiting (respond h (S (length pre)) exiting)]
  /\ (respond h (S (length pre)) exiting = None -> out = outcome_of (Raise e)).
Proof.
  intros Hrun Htrace Hloop Hreply Hexc Hki.
  assert (Hesc : escapes ev).
  { split; [assumption|]. unfold contained. rewrite Hreply, Hexc. apply andb_false_r. }
  destruct (leaving_call _ _ _ _ _ _ _ Hrun Htrace Hesc Hreply) as (part & r1 & Hshut & -> & ->).
  destruct Hshut as [(Hk & _)|[(_ & He & _)|(_ & _ & -> & ->)]]; try congruence.
  cbn [rev app length Nat.add]. split; [reflexivity|]. intros ->. reflexivity.
Qed.

(** X2.  An exception raised by a call made before the [try] statement (the
    import, a line of the banner, a start-up error message), a Ctrl+C
    included, is handled by nothing: it is the last call of the run, no
    "Stopped by User" and no "Exiting." follow, and the exception
    reaches the interpreter. *)
Theorem startup_exception_is_fatal fuel out s pre ev post e :
  run h cfg fuel = (out, s) ->
  trace s = pre ++ ev :: post ->
  before_try ev ->
  ev_reply ev = Some e ->
  post = [] /\ out = outcome_of (Raise e).
Proof.
  intros Hrun Htrace Hev Hreply.
  assert (Hin : In ev (trace s)) by (rewrite Htrace; apply in_elt).
  assert (Hline := before_try_lines _ Hev).
  destruct (run_shape _ _ _ Hrun)
    as [(last & rest & Hl & Hlast & Hrest & Hout)
       |[(_ & evs & Ht & Hevs & _)
        |(evs & x & e0 & part & r1 & Ht & Hevs & Hx & _ & _ & _ & Hshut & _)]].
  - unfold trace in Htrace. rewrite Hl in Htrace. cbn [rev] in Htrace.
    apply (unique_split (fun a => ev_reply a <> None) (rev rest) last []) in Htrace
      as (_ & -> & ->); [| |constructor|congruence].
    + rewrite Hreply in Hout. auto.
    + apply Forall_rev. eapply Forall_impl; [exact Hrest|]. intros a [_ Ha]. congruence.
  - exfalso. rewrite Ht in Hin. apply in_app_or in Hin as [Hin|Hin].
    + apply (Forall_In _ _ _ banner_lines) in Hin as [_ Hnone]. congruence.
    + apply (Forall_In _ _ _ Hevs), loop_event_in_loop, in_loop_lines in Hin. lia.
  - exfalso. cbn zeta in Ht. rewrite Ht in Hin.
    repeat (apply in_app_or in Hin as [Hin|Hin]).
    + apply (Forall_In _ _ _ banner_lines) in Hin as [_ Hnone]. congruence.
    + apply (Forall_In _ _ _ Hevs), loop_event_in_loop, in_loop_lines in Hin. lia.
    + destruct Hin as [<-|[]]. apply loop_event_in_loop, in_loop_lines in Hx. lia.
    + apply in_rev in Hin.
      apply (Forall_In _ _ _ (shutdown_lines _ _ _ _ Hshut)) in Hin. cbn in Hin. lia.
    + destruct Hin as [<-|[]]. cbn in Hline. lia.
Qed.

(** X3.  As soon as a run makes a call that is no start-up call (a call of
    the loop, a shutdown message), its first five calls are the import
    and the four lines of the banner, the second showing the interval,
    all of them returned; and no start-up line is printed after them. *)
Theorem banner_comes_first fuel out s ev :
  run h cfg fuel = (out, s) ->
  In ev (trace s) ->
  ~ before_try ev ->
  exists rest,
    trace s = banner h cfg ++ rest /\ Forall (fun ev => ~ before_try ev) rest.
Proof.
  intros Hrun Hin Hev.
  assert (Hloop : forall evs, Forall (loop_event h cfg) evs ->
                              Forall (fun ev => ~ before_try ev) evs).
  { intros evs Hevs. eapply Forall_impl; [exact Hevs|].
    intros a Ha%loop_event_in_loop%in_loop_lines Hb%before_try_lines. lia. }
  destruct (run_shape _ _ _ Hrun)
    as [(last & rest & Hl & Hlast & Hrest & _)
       |[(_ & evs & Ht & Hevs & _)
        |(evs & x & e0 & part & r1 & Ht & Hevs & Hx & _ & _ & _ & Hshut & _)]].
  - exfalso. unfold trace in Hin. rewrite Hl in Hin. apply in_rev in Hin.
    destruct Hin as [<-|Hin]; [auto|].
    apply (Forall_In _ _ _ Hrest) in Hin as [Hb _]. auto.
  - exists evs. split; [exact Ht|auto].
  - cbn zeta in Ht. eexists. split; [exact Ht|].
    repeat apply Forall_app_2; auto.
    + apply Forall_rev. eapply Forall_impl; [exact (shutdown_lines _ _ _ _ Hshut)|].
      intros a Ha Hb%before_try_lines. cbn in Ha. lia.
    + repeat constructor. intros Hb%before_try_lines. cbn in Hb. lia.
Qed.

(** X6.  "Exiting." is printed at most once and only as the last call of a
    run.  A run that printed it is no longer in the loop; a run that did
    not print it (it stopped during start-up, or is still in the loop)
    did not reach the end of the module. *)
Theorem exiting_is_last fuel out s :
  run h cfg fuel = (out, s) ->
  (exists pre reply,
     trace s = pre ++ [Ev 79 exiting reply]
     /\ Forall (fun ev => ev_line ev <> 79%nat) pre /\ out <> Running)
  \/ (Forall (fun ev => ev_line ev <> 79%nat) (trace s) /\ out <> Finished).
Proof.
  intros Hrun.
  assert (Hloop : forall evs, Forall (loop_event h cfg) evs ->
                              Forall (fun ev => ev_line ev <> 79%nat) evs).
  { intros evs Hevs. eapply Forall_impl; [exact Hevs|].
    intros a Ha%loop_event_in_loop%in_loop_lines. lia. }
  assert (Hban : Forall (fun ev => ev_line ev <> 79%nat) (banner h cfg)).
  { eapply Forall_impl; [exact banner_lines|]. intros a [Ha%before_try_lines _]. lia. }
  destruct (run_shape _ _ _ Hrun)
    as [(last & rest & Hl & Hlast & Hrest & Hout)
       |[(-> & evs & Ht & Hevs & _)
        |(evs & x & e0 & part & r1 & Ht & Hevs & Hx & _ & _ & _ & Hshut & Hout)]].
  - right. split.
    + unfold trace. rewrite Hl. apply Forall_rev. constructor.
      * apply before_try_lines in Hlast. lia.
      * eapply Forall_impl; [exact Hrest|]. intros a [Ha%before_try_lines _]. lia.
    + rewrite Hout. destruct (ev_reply last); [apply raised_outcome|discriminate].
  - right. split; [|discriminate]. rewrite Ht. apply Forall_app_2; auto.
  - left. cbn zeta in Ht, Hout. eexists _, _. rewrite !app_assoc in Ht.
    split; [exact Ht|]. split.
    + repeat apply Forall_app_2; auto.
      apply Forall_rev. eapply Forall_impl; [exact (shutdown_lines _ _ _ _ Hshut)|].
      intros a Ha. cbn in Ha. lia.
    + rewrite Hout.
      destruct (respond h _ exiting); [apply raised_outcome|].
      destruct Hshut as [(_ & _ & ->)|[(_ & _ & Hcase)|(_ & _ & _ & ->)]].
      * destruct (respond h _ stopped_by_user); [apply raised_outcome|discriminate].
      * destruct (respond h _ unexpected_error); destruct Hcase as [_ ->];
          [apply raised_outcome|].
        destruct (respond h _ (error_details h e0)); [apply raised_outcome|discriminate].
      * apply raised_outcome.
Qed.

(** X5.  The two shutdown messages are never printed without their cause:
    the call before "Stopped by User" is a call of the loop that raised
    a [KeyboardInterrupt], and the call before "An Unexpected Error
    Occurred" is a call of the loop outside the [try] block of the
    playback function that raised an [Exception]. *)
Theorem shutdown_message_has_cause fuel out s pre ev post :
  run h cfg fuel = (out, s) ->
  trace s = pre ++ ev :: post ->
  ev_line ev = 74%nat \/ ev_line ev = 76%nat ->
  exists pre' cause e,
    pre = pre' ++ [cause]
    /\ in_loop (ev_line cause) = true
    /\ ev_reply cause = Some e
    /\ (ev_line ev = 74%nat -> ev_call ev = stopped_by_user
                               /\ is_KeyboardInterrupt e = true)
    /\ (ev_line ev = 76%nat -> ev_call ev = unexpected_error
                               /\ is_Exception e = true
                               /\ in_try_block (ev_line cause) = false).
Proof.
  intros Hrun Htrace Hline.
  assert (Hin : In ev (trace s)) by (rewrite Htrace; apply in_elt).
  set (P := fun a : event => ev_line a = 74%nat \/ ev_line a = 76%nat).
  assert (Hloop : forall evs, Forall (loop_event h cfg) evs -> Forall (fun a => ~ P a) evs).
  { intros evs Hevs. eapply Forall_impl; [exact Hevs|].
    intros a Ha%loop_event_in_loop%in_loop_lines. unfold P. lia. }
  assert (Hban : Forall (fun a => ~ P a) (banner h cfg)).
  { eapply Forall_impl; [exact banner_lines|].
    intros a [Ha%before_try_lines _]. unfold P. lia. }
  destruct (run_shape _ _ _ Hrun)
    as [(last & rest & Hl & Hlast & Hrest & _)
       |[(_ & evs & Ht & Hevs & _)
        |(evs & x & e0 & part & r1 & Ht & Hevs & Hx & _ & Hrx & Hcx & Hshut & _)]].
  - exfalso. unfold trace in Hin. rewrite Hl in Hin. apply in_rev in Hin.
    destruct Hin as [<-|Hin].
    + apply before_try_lines in Hlast. lia.
    + apply (Forall_In _ _ _ Hrest) in Hin as [Hb%before_try_lines _]. lia.
  - exfalso. rewrite Ht in Hin.
    apply (Forall_In (fun a => ~ P a) (banner h cfg ++ evs)) in Hin; [apply Hin; exact Hline|].
    apply Forall_app_2; auto.
  - cbn zeta in Ht.
    assert (Hbefore : Forall (fun a => ~ P a) ((banner h cfg ++ evs) ++ [x])).
    { repeat apply Forall_app_2; auto. }
    assert (Hlast : ~ P (Ev 79 exiting
              (respond h (length part + length (banner h cfg ++ evs ++ [x])) exiting))).
    { unfold P. cbn. lia. }
    assert (Hxl := loop_event_in_loop h cfg _ Hx).
    assert (Ht0 : trace s = ((banner h cfg ++ evs) ++ [x]) ++ rev part
                    ++ [Ev 79 exiting
                          (respond h (length part + length (banner h cfg ++ evs ++ [x]))
                             exiting)]).
    { rewrite Ht, <- !app_assoc. reflexivity. }
    clear Ht. rewrite Ht0 in Htrace, Hin. clear Ht0.
    destruct Hshut as [(Hk & -> & _)|[(Hk & He & Hcase)|(_ & _ & -> & _)]].
    + cbn [rev app] in Htrace.
      assert (Hafter : Forall (fun a => ~ P a)
                [Ev 79 exiting
                   (respond h (length [Ev 74 stopped_by_user
                       (respond h (length (banner h cfg ++ evs ++ [x])) stopped_by_user)]
                     + length (banner h cfg ++ evs ++ [x])) exiting)])
        by (repeat constructor; auto).
      destruct (unique_split P _ _ _ Hbefore Hafter _ _ _ Htrace Hline) as (-> & -> & _).
      exists (banner h cfg ++ evs), x, e0. cbn [ev_line ev_call].
      repeat split; auto; discriminate.
    + assert (Htry : in_try_block (ev_line x) = false).
      { unfold contained in Hcx. rewrite Hrx, He, andb_true_r in Hcx. exact Hcx. }
      destruct (respond h _ unexpected_error) as [e'|]; destruct Hcase as [-> _];
        cbn [rev app] in Htrace;
        match type of Htrace with
        | _ ++ _ :: ?after = _ =>
            assert (Hafter : Forall (fun a => ~ P a) after)
              by (repeat constructor; unfold P; cbn; lia)
        end;
        destruct (unique_split P _ _ _ Hbefore Hafter _ _ _ Htrace Hline) as (-> & -> & _);
        exists (banner h cfg ++ evs), x, e0; cbn [ev_line ev_call];
        repeat split; auto; discriminate.
    + exfalso. cbn [rev app] in Hin.
      apply in_app_or in Hin as [Hin|[<-|[]]]; [|auto].
      apply (Forall_In _ _ _ Hbefore) in Hin. auto.
Qed.

(** *** The handlers of the playback function *)

(** X7.  The handlers do not protect their own prints.  When the sound call
    fails and the print that reports it raises in turn, that second
    exception, whatever its class, leaves the playback function and the
    iteration: the report is the last call made, the "Waiting" line is
    not printed and there is no sleep, and the loop is left. *)
Theorem report_failure_escapes fuel s e e' :
  configured cfg s ->
  quiet_at h (length (log s)) ->
  quiet_at h (S (length (log s))) ->
  quiet_at h (S (S (length (log s)))) ->
  sound_fails_at h (S (S (S (length (log s))))) e ->
  is_Exception e = true ->
  respond h (S (S (S (S (length (log s)))))) (snd (failure_report h e)) = Some e' ->
  exists s' rest,
    play_windows_notification h s = (Raise e', s')
    /\ iteration h s = (Raise e', s')
    /\ while_true (S fuel) (iteration h) s = (Raise e', s')
    /\ log s' = Ev (fst (failure_report h e)) (snd (failure_report h e)) (Some e') :: rest
    /\ length (log s') = (5 + length (log s))%nat.
Proof.
  destruct s as [g l]. unfold configured. cbn [globals log]. intros -> H0 H1 H2 H3 Hexc H4.
  assert (Hplay : exists rest,
            play_windows_notification h (St (config_globals cfg) l)
            = (Raise e', St (config_globals cfg)
                            (Ev (fst (failure_report h e)) (snd (failure_report h e)) (Some e')
                             :: rest))
            /\ length rest = (4 + length l)%nat).
  { unfold failure_report, is_Exception in *.
    destruct (is_RuntimeError e) eqn:Hre; unfold is_RuntimeError in Hre; cbn [fst snd] in *.
    all: unfold_monad; repeat run_step.
    all: eexists; split; [reflexivity|reflexivity]. }
  destruct Hplay as (rest & Hplay & Hlen).
  eexists _, rest. split; [exact Hplay|].
  assert (Hit : iteration h (St (config_globals cfg) l)
                = (Raise e', St (config_globals cfg)
                     (Ev (fst (failure_report h e)) (snd (failure_report h e)) (Some e')
                      :: rest))).
  { unfold iteration, bind. rewrite Hplay. reflexivity. }
  split; [exact Hit|]. split; [cbn [while_true]; unfold bind; rewrite Hit; reflexivity|].
  split; [reflexivity|]. cbn [log length]. lia.
Qed.

(** *** Counting what a running program has done *)

Lemma count_calls_app kind evs1 evs2 :
  count_calls kind (evs1 ++ evs2) = (count_calls kind evs1 + count_calls kind evs2)%nat.
Proof. unfold count_calls. rewrite List.filter_app, length_app. reflexivity. Qed.

Lemma count_calls_rev kind evs : count_calls kind (rev evs) = count_calls kind evs.
Proof.
  induction evs as [|ev evs IH]; [reflexivity|]. cbn [rev].
  rewrite count_calls_app, IH. unfold count_calls. cbn [List.filter].
  destruct (kind (ev_call ev)); cbn [length]; lia.
Qed.

Lemma sound_calls_count evs : sound_calls evs = count_calls is_sound evs.
Proof. reflexivity. Qed.

Lemma play_counts s r s' :
  configured cfg s -> play_windows_notification h s = (r, s') ->
  exists evs, log s' = evs ++ log s
    /\ count_calls is_clock evs = 1%nat /\ count_calls is_sleep evs = 0%nat.
Proof.
  destruct s as [g l]. unfold configured. cbn [globals]. intros ->.
  unfold_monad. repeat run_step.
  all: intros [= <- <-]; cbn [globals log].
  all: match goal with
       | |- exists evs, ?new = evs ++ ?old /\ _ =>
           let evs := new_events old new in exists evs
       end; repeat split; reflexivity.
Qed.

Lemma wait_step_returns s s' :
  configured cfg s -> wait_step h s = (Ret tt, s') ->
  log s' = Ev 72 (Sleep (INTERVAL_SECONDS cfg)) None :: Ev 71 (waiting_line h cfg) None :: log s.
Proof.
  destruct s as [g l]. unfold configured. cbn [globals]. intros ->.
  unfold_monad. repeat run_step; intros [= <-]; reflexivity.
Qed.

Lemma iteration_counts s s' :
  configured cfg s -> iteration h s = (Ret tt, s') ->
  configured cfg s' /\
  exists evs, log s' = evs ++ log s
    /\ count_calls is_clock evs = 1%nat /\ count_calls is_sleep evs = 1%nat
    /\ (count_calls is_sound evs <= 1)%nat.
Proof.
  intros Hs. unfold iteration, bind.
  destruct (play_windows_notification h s) as [r1 s1] eqn:Hplay.
  destruct (play_counts _ _ _ Hs Hplay) as (evs & Hl & Hclock & Hsleep).
  destruct (play_sound_calls h cfg _ _ _ Hs Hplay) as (evs' & Hl' & Hsound).
  assert (evs' = evs) as -> by (rewrite Hl in Hl'; eapply app_inv_tail; eauto).
  assert (Hs1 : configured cfg s1).
  { unfold configured in *. rewrite (keeps_play h _ _ _ Hplay). assumption. }
  destruct r1 as [[]|e|]; try discriminate. intros Hwait.
  assert (Hs' : configured cfg s').
  { unfold configured in *.
    rewrite (keeps_iteration h s (Ret tt) s'); [assumption|].
    unfold iteration, bind. rewrite Hplay. exact Hwait. }
  split; [exact Hs'|].
  rewrite (wait_step_returns _ _ Hs1 Hwait), Hl.
  exists (Ev 72 (Sleep (INTERVAL_SECONDS cfg)) None :: Ev 71 (waiting_line h cfg) None :: evs).
  split; [reflexivity|].
  change (?a :: ?b :: evs) with ([a; b] ++ evs). rewrite !count_calls_app.
  rewrite Hclock, Hsleep. rewrite sound_calls_count in Hsound.
  repeat split; try reflexivity. cbn. lia.
Qed.


Lemma loop_counts n : forall s s',
  configured cfg s -> while_true n (iteration h) s = (Fuel, s') ->
  exists evs, log s' = evs ++ log s
    /\ count_calls is_clock evs = n /\ count_calls is_sleep evs = n
    /\ (count_calls is_sound evs <= n)%nat.
Proof.
  induction n as [|n IH]; intros s s' Hs; cbn [while_true].
  - intros [= <-]. exists []. repeat split; cbn; lia.
  - unfold bind. destruct (iteration h s) as [[[]|e|] s1] eqn:Hit; try discriminate.
    2: { destruct (iteration_spec h cfg _ _ _ Hs Hit) as (_ & ? & _ & _ & []). }
    intros Hloop.
    destruct (iteration_counts _ _ Hs Hit) as (Hs1 & evs1 & Hl1 & Hc1 & Hz1 & Hp1).
    destruct (IH _ _ Hs1 Hloop) as (evs & Hl & Hc & Hz & Hp).
    exists (evs ++ evs1). split; [rewrite Hl, Hl1; apply app_assoc|].
    rewrite !count_calls_app. repeat split; lia.
Qed.

(** X8.  After [n] iterations and still in the loop, whatever failed and was
    caught on the way, the program has read the clock [n] times, slept
    [n] times, each sleep being a call of line 72 for exactly
    [INTERVAL_SECONDS] that returned, and made at most [n] sound calls. *)
Theorem running_counts n s :
  run h cfg n = (Running, s) ->
  count_calls is_clock (trace s) = n
  /\ count_calls is_sleep (trace s) = n
  /\ (count_calls is_sound (trace s) <= n)%nat
  /\ forall ev, In ev (trace s) -> is_sleep (ev_call ev) = true ->
       ev = Ev 72 (Sleep (INTERVAL_SECONDS cfg)) None.
Proof.
  intros Hrun.
  destruct (run_startup _ _ _ Hrun)
    as [(last & rest & _ & _ & _ & Hout)|(r & Hmain & Hout)].
  { exfalso. destruct (ev_reply last); [|discriminate].
    symmetry in Hout. apply (proj1 (raised_outcome _) Hout). }
  set (s0 := St (config_globals cfg) (rev (banner h cfg))) in Hmain.
  destruct (main_try_cases _ s0 _ _ eq_refl Hmain)
    as (r0 & s1 & evs & Hloop & Hl & Hev & Hend & Hcase).
  assert (r = Fuel) as ->.
  { destruct r as [[]|e|]; try discriminate; [|reflexivity].
    exfalso. symmetry in Hout. apply (proj1 (raised_outcome _) Hout). }
  destruct r0 as [[]|e|]; [destruct Hcase| |].
  { exfalso. destruct Hcase as (part & r1 & Hshut & _ & Hr).
    destruct (respond h _ exiting); [discriminate|]. subst r1.
    destruct Hshut as [(_ & _ & Hr)|[(_ & _ & Hcase)|(_ & _ & _ & Hr)]]; try discriminate.
    - destruct (respond h _ stopped_by_user); discriminate.
    - destruct (respond h _ unexpected_error); destruct Hcase as [_ Hr]; [discriminate|].
      destruct (respond h _ (error_details h e)); discriminate. }
  destruct Hcase as [_ ->].
  destruct (loop_counts _ s0 _ eq_refl Hloop) as (evs' & Hl' & Hc & Hz & Hp).
  assert (evs' = evs) as -> by (rewrite Hl in Hl'; eapply app_inv_tail; eauto).
  subst s0. cbn [log] in Hl.
  assert (Hb : forall kind, (kind = is_clock \/ kind = is_sleep \/ kind = is_sound) ->
                 count_calls kind (trace s1) = count_calls kind evs).
  { intros kind Hk. unfold trace.
    rewrite count_calls_rev, Hl, count_calls_app, count_calls_rev.
    destruct Hk as [ -> | [ -> | -> ] ]; cbn; lia. }
  rewrite !Hb by auto. repeat split; auto.
  intros ev Hin Hsleep. unfold trace in Hin. apply in_rev in Hin. rewrite Hl in Hin.
  apply in_app_or in Hin as [Hin|Hin].
  - cbn in Hend. apply (Forall_In _ _ _ Hev) in Hin as Hle.
    apply (Forall_In _ _ _ Hend) in Hin as Hc'.
    destruct ev as [line c reply]. unfold loop_event in Hle. cbn [ev_call ev_line] in *.
    destruct c; try discriminate. destruct Hle as [-> ->].
    unfold contained in Hc'. cbn in Hc'. destruct reply; [discriminate|reflexivity].
  - apply in_rev in Hin. exfalso.
    cbn in Hin. repeat (destruct Hin as [<-|Hin]; [discriminate|]). exact Hin.
Qed.

(** *** Every sound and every wait is announced *)

Ltac announced_head l :=
  unfold announced_at, announcement;
  cbn [ev_call ev_line is_sleep is_sound Nat.eqb];
  first [ split; reflexivity | exists l; reflexivity ].

Lemma play_announced s r s' :
  configured cfg s -> announced h (log s) ->
  play_windows_notification h s = (r, s') -> announced h (log s').
Proof.
  destruct s as [g l]. unfold configured. cbn [globals log]. intros -> Ha.
  unfold_monad. repeat run_step.
  all: intros [= <- <-]; cbn [globals log announced].
  all: repeat (split; [announced_head l|]); exact Ha.
Qed.

Lemma wait_step_announced s r s' :
  configured cfg s -> announced h (log s) ->
  wait_step h s = (r, s') -> announced h (log s').
Proof.
  destruct s as [g l]. unfold configured. cbn [globals log]. intros -> Ha.
  unfold_monad. repeat run_step.
  all: intros [= <- <-]; cbn [globals log announced].
  all: repeat (split; [announced_head l|]); exact Ha.
Qed.

Lemma iteration_announced s r s' :
  configured cfg s -> announced h (log s) ->
  iteration h s = (r, s') -> configured cfg s' /\ announced h (log s').
Proof.
  intros Hs Ha Hit. split.
  - unfold configured in *. rewrite (keeps_iteration h _ _ _ Hit). assumption.
  - revert Hit. unfold iteration, bind.
    destruct (play_windows_notification h s) as [r1 s1] eqn:Hplay.
    pose proof (play_announced _ _ _ Hs Ha Hplay) as Ha1.
    assert (Hs1 : configured cfg s1).
    { unfold configured in *. rewrite (keeps_play h _ _ _ Hplay). assumption. }
    destruct r1 as [[]|e|]; try (intros [= <- <-]; assumption).
    apply wait_step_announced; assumption.
Qed.

Lemma loop_announced fuel s r s' :
  configured cfg s -> announced h (log s) ->
  while_true fuel (iteration h) s = (r, s') -> announced h (log s').
Proof.
  revert s. induction fuel as [|fuel IH]; intros s Hs Ha; cbn [while_true].
  - intros [= <- <-]. assumption.
  - unfold bind. destruct (iteration h s) as [r1 s1] eqn:Hit.
    destruct (iteration_announced _ _ _ Hs Ha Hit) as [Hs1 Ha1].
    destruct r1 as [[]|e|]; try (intros [= <- <-]; assumption).
    apply IH; assumption.
Qed.

Lemma announced_unnamed ev l :
  announcement h ev = None -> is_sound (ev_call ev) = false ->
  is_sleep (ev_call ev) = false -> announced h l -> announced h (ev :: l).
Proof. intros Hn Hs Hw Ha. cbn. unfold announced_at. rewrite Hn. auto. Qed.

Lemma run_announced fuel out s : run h cfg fuel = (out, s) -> announced h (log s).
Proof.
  intros Hrun.
  destruct (run_startup_calls _ _ _ Hrun)
    as [(last & rest & -> & _ & _ & _ & Hcalls)|(r & Hmain & _)].
  - induction Hcalls as [|ev l (Hn & Hs & Hw) _ IH]; [exact I|].
    apply announced_unnamed; assumption.
  - destruct (main_try_cases _ (St (config_globals cfg) (rev (banner h cfg))) _ _
                eq_refl Hmain) as (r0 & s0 & evs & Hloop & _ & _ & _ & Hcase).
    assert (Ha0 : announced h (log s0)).
    { apply (loop_announced fuel (St (config_globals cfg) (rev (banner h cfg))) r0);
        [reflexivity| |exact Hloop].
      cbn. unfold announced_at. cbn. intuition. }
    destruct r0 as [[]|e|]; [destruct Hcase| |destruct Hcase as [_ ->]; exact Ha0].
    destruct Hcase as (part & r1 & Hshut & -> & _).
    apply announced_unnamed; try reflexivity.
    destruct Hshut as [(_ & -> & _)|[(_ & _ & Hpart)|(_ & _ & -> & _)]].
    + apply announced_unnamed; try reflexivity. exact Ha0.
    + destruct (respond h (length (log s0)) unexpected_error).
      * destruct Hpart as [-> _]. apply announced_unnamed; try reflexivity. exact Ha0.
      * destruct Hpart as [-> _].
        repeat (apply announced_unnamed; try reflexivity). exact Ha0.
    + exact Ha0.
Qed.

Lemma announced_inside l newer ev older :
  announced h l -> l = newer ++ ev :: older -> announced_at h ev older.
Proof.
  intros Ha ->. induction newer as [|x newer IH]; cbn in Ha; [tauto|].
  apply IH. tauto.
Qed.

(** X9.  On every host and for every configuration, no sound is played
    and no wait is begun unannounced.  A sleep is made right after its
    "Waiting for ... seconds..." line was printed, and that line names
    the very value slept.  A sound call is made right after the clock
    was read, the time then read was printed in the "Playing
    notification" line and the resource line of the call's own mode was
    printed, naming the very sound played.  In each case these calls
    returned: after a print that raised, neither is attempted. *)
Theorem sound_and_wait_are_announced fuel out s pre ev post :
  run h cfg fuel = (out, s) -> trace s = pre ++ ev :: post ->
  (is_sleep (ev_call ev) = true ->
   exists line pre',
     announcement h ev = Some line /\ pre = pre' ++ [line])
  /\ (is_sound (ev_call ev) = true ->
      exists line pre',
        announcement h ev = Some line
        /\ pre = pre' ++ [Ev 41 DatetimeNow None;
                          Ev 41 (playing_line h (length pre')) None; line]).
Proof.
  intros Hrun Htrace.
  assert (Hlog : log s = rev post ++ ev :: rev pre).
  { rewrite <- (rev_involutive (log s)). fold (trace s). rewrite Htrace.
    rewrite rev_app_distr. cbn [rev]. rewrite <- app_assoc. reflexivity. }
  pose proof (announced_inside _ _ _ _ (run_announced _ _ _ Hrun) Hlog) as Hat.
  unfold announced_at in Hat.
  destruct (announcement h ev) as [line|]; [|destruct Hat as [Hs Hw]; split; congruence].
  split; intros Hkind.
  - rewrite Hkind in Hat. destruct Hat as [rest Hrest].
    exists line, (rev rest). split; [reflexivity|].
    rewrite <- (rev_involutive pre), Hrest. reflexivity.
  - assert (Hw : is_sleep (ev_call ev) = false) by (destruct (ev_call ev); cbn in *; congruence).
    rewrite Hw in Hat. destruct Hat as [rest Hrest].
    exists line, (rev rest). split; [reflexivity|].
    rewrite <- (rev_involutive pre), Hrest. cbn [rev]. rewrite length_rev.
    rewrite <- !app_assoc. reflexivity.
Qed.

(** *** What the configuration is read for *)

Section SameBehaviour.

Variables g1 g2 : gmap string pyval.

Lemma same_ret {A} (a : A) : same_behaviour g1 g2 (ret a) (ret a).
Proof. intros l r s1 [= <- <-]. auto. Qed.

Lemma same_raise {A} e : same_behaviour g1 g2 (@raise A e) (raise e).
Proof. intros l r s1 [= <- <-]. auto. Qed.

Lemma same_host_call line c :
  same_behaviour g1 g2 (host_call h line c) (host_call h line c).
Proof.
  intros l r s1. unfold host_call. cbn [log globals].
  destruct (respond h (length l) c); intros [= <- <-]; auto.
Qed.

Lemma same_datetime_now line :
  same_behaviour g1 g2 (datetime_now h line) (datetime_now h line).
Proof.
  intros l r s1. unfold datetime_now, bind, host_call, ret. cbn [log globals].
  destruct (respond h (length l) DatetimeNow); intros [= <- <-]; auto.
Qed.

Lemma same_bind {A B} (m1 m2 : M A) (k1 k2 : A -> M B) :
  same_behaviour g1 g2 m1 m2 -> (forall a, same_behaviour g1 g2 (k1 a) (k2 a)) ->
  same_behaviour g1 g2 (bind m1 k1) (bind m2 k2).
Proof.
  intros Hm Hk l r s1. unfold bind.
  destruct (m1 (St g1 l)) as [r1 sm] eqn:Hm1.
  destruct (Hm _ _ _ Hm1) as [Hg ->]. destruct sm as [gm lm]. cbn [globals log] in *. subst gm.
  destruct r1 as [a|e|]; [apply Hk|intros [= <- <-]; auto..].
Qed.

Lemma same_load {A} name v1 v2 (k1 k2 : pyval -> M A) :
  g1 !! name = Some v1 -> g2 !! name = Some v2 ->
  same_behaviour g1 g2 (k1 v1) (k2 v2) ->
  same_behaviour g1 g2 (bind (load name) k1) (bind (load name) k2).
Proof.
  intros H1 H2 Hk l r s1. unfold bind, load. cbn [globals]. rewrite H1, H2. apply Hk.
Qed.

Lemma same_when c m1 m2 :
  same_behaviour g1 g2 m1 m2 -> same_behaviour g1 g2 (when c m1) (when c m2).
Proof. destruct c; cbn; [auto|intros _; apply same_ret]. Qed.

Lemma same_try_except {A} (b1 b2 : M A) (hs : clauses A) :
  same_behaviour g1 g2 b1 b2 ->
  Forall (fun ck => forall e, same_behaviour g1 g2 (snd ck e) (snd ck e)) hs ->
  same_behaviour g1 g2 (try_except b1 hs) (try_except b2 hs).
Proof.
  intros Hb Hhs l r s1. unfold try_except.
  destruct (b1 (St g1 l)) as [r1 sm] eqn:Hb1.
  destruct (Hb _ _ _ Hb1) as [Hg ->]. destruct sm as [gm lm]. cbn [globals log] in *. subst gm.
  destruct r1 as [a|e|]; try (intros [= <- <-]; auto).
  assert (Hfind : forall k, find_handler e hs = Some k -> same_behaviour g1 g2 (k e) (k e)).
  { clear -Hhs. induction Hhs as [|[c k'] hs' Hk _ IH]; cbn [find_handler]; [discriminate|].
    intros k. destruct (issubclass (exn_class e) c); [|apply IH].
    intros Heq. assert (k' = k) as <- by congruence. apply Hk. }
  destruct (find_handler e hs) as [k|] eqn:Hf.
  - apply (Hfind k eq_refl).
  - intros [= <- <-]. auto.
Qed.

Lemma same_try_finally {A} (b1 b2 : M A) (fin : M unit) :
  same_behaviour g1 g2 b1 b2 -> same_behaviour g1 g2 fin fin ->
  same_behaviour g1 g2 (try_finally b1 fin) (try_finally b2 fin).
Proof.
  intros Hb Hf l r s1. unfold try_finally.
  destruct (b1 (St g1 l)) as [r1 sm] eqn:Hb1.
  destruct (Hb _ _ _ Hb1) as [Hg ->]. destruct sm as [gm lm]. cbn [globals log] in *. subst gm.
  destruct r1 as [a|e|]; try (intros [= <- <-]; auto).
  all: destruct (fin (St g1 lm)) as [rf sf] eqn:Hfin;
    destruct (Hf _ _ _ Hfin) as [Hgf ->];
    destruct rf as [[]|e'|]; intros [= <- <-]; auto.
Qed.

Lemma same_while_true fuel b1 b2 :
  same_behaviour g1 g2 b1 b2 ->
  same_behaviour g1 g2 (while_true fuel b1) (while_true fuel b2).
Proof.
  intros Hb. induction fuel as [|fuel IH]; cbn [while_true].
  - intros l r s1 [= <- <-]. auto.
  - apply same_bind; auto.
Qed.

End SameBehaviour.

Section SameSettings.

Variable cfg2 : config.
Hypothesis Hsame : same_settings cfg cfg2.

Abbreviation alike := (same_behaviour (config_globals cfg) (config_globals cfg2)).

Ltac same_step :=
  first
    [ apply same_host_call
    | apply same_datetime_now
    | apply same_ret
    | apply same_raise
    | apply same_when
    | eapply same_load; [reflexivity | reflexivity | cbv beta ]
    | apply same_bind; [ | intros ? ] ].

Ltac same_steps H := repeat (same_step; rewrite <- ?H).

Lemma same_play :
  alike (play_windows_notification h) (play_windows_notification h).
Proof.
  destruct Hsame as (Hi & Ha & Hmode).
  unfold play_windows_notification. apply same_try_except.
  - apply same_bind; [apply same_datetime_now|intros t].
    apply same_bind; [apply same_host_call|intros _].
    eapply same_load; [reflexivity..|]. rewrite <- Ha.
    destruct (truthy (USE_ALIAS cfg)).
    + same_steps Hmode.
    + destruct Hmode as [Hw Hmode].
      eapply same_load; [reflexivity..|]. rewrite <- Hw.
      destruct (truthy (USE_WAV cfg)).
      * same_steps Hmode.
      * destruct Hmode as [Hf Hd].
        repeat (same_step; rewrite <- ?Hf, <- ?Hd).
  - repeat (apply Forall_cons_2; [intros e; cbn [snd]; repeat same_step|]).
    apply Forall_nil_2.
Qed.

Lemma same_wait_step : alike (wait_step h) (wait_step h).
Proof.
  destruct Hsame as (Hi & _). unfold wait_step.
  same_steps Hi.
Qed.

Lemma same_main fuel : alike (main h fuel) (main h fuel).
Proof.
  destruct Hsame as (Hi & _). unfold main.
  apply same_bind; [apply same_host_call|intros _].
  eapply same_load; [reflexivity..|]. rewrite <- Hi.
  do 3 (apply same_bind; [apply same_host_call|intros _]).
  unfold main_try. apply same_try_finally; [|apply same_host_call].
  apply same_try_except.
  - apply same_while_true. unfold iteration.
    apply same_bind; [apply same_play|intros _; apply same_wait_step].
  - repeat (apply Forall_cons_2; [intros e; cbn [snd]; repeat same_step|]).
    apply Forall_nil_2.
Qed.

Lemma same_input_validation :
  alike (input_validation h) (input_validation h).
Proof.
  destruct Hsame as (Hi & _). unfold input_validation.
  eapply same_load; [reflexivity..|]. rewrite <- Hi.
  apply same_bind.
  - unfold interval_rejected.
    destruct (negb _); [apply same_ret|].
    destruct (le_zero _); [apply same_ret|apply same_raise].
  - intros bad. apply same_when.
    same_steps Hi.
Qed.

(** X10.  Two configurations that agree on the interval, on the truth
    value of each flag the script tests and on the parameters of the
    mode these flags select give the same run on every host: the same
    calls with the same answers in the same order, and the same
    outcome.  The parameters of the modes that are not selected, and
    which true or false value a flag has, are never looked at. *)
Theorem unselected_settings_are_ignored fuel :
  fst (run h cfg fuel) = fst (run h cfg2 fuel)
  /\ trace (snd (run h cfg fuel)) = trace (snd (run h cfg2 fuel)).
Proof.
  unfold run.
  destruct (String.eqb_spec (platform_system h) "Windows") as [Hp|Hp].
  - rewrite !(script_windows _ _ fuel Hp).
    destruct (respond h 0 (Import "winsound")) as [e|]; [split; reflexivity|].
    destruct ((input_validation h ;; main h fuel)
                (St (config_globals cfg) [Ev 12 (Import "winsound") None]))
      as [r s1] eqn:Hrun.
    assert (Hsb : alike (input_validation h ;; main h fuel)
                    (input_validation h ;; main h fuel)).
    { apply same_bind; [apply same_input_validation|intros _; apply same_main]. }
    destruct (Hsb _ _ _ Hrun) as [_ ->]. split; reflexivity.
  - rewrite !(script_not_windows _ _ fuel Hp). split; reflexivity.
Qed.

End SameSettings.

End Further.

(** ** The further theorems at work *)


Lemma startup_exception_is_fatal_witness :
  let s := snd (run mute_host shipped 1) in
  let ev := Ev 60 (Print "--- Windows Notification Script Started (using winsound) ---")
               (Some console_closed) in
  trace s = [Ev 12 (Import "winsound") None] ++ ev :: []
  /\ before_try ev
  /\ fst (run mute_host shipped 1) = Uncaught console_closed.
Proof.
  intros s ev.
  assert (Htrace : trace s = [Ev 12 (Import "winsound") None] ++ ev :: [])
    by (vm_compute; reflexivity).
  assert (Hline : before_try ev) by (cbn; tauto).
  split; [exact Htrace|]. split; [exact Hline|].
  destruct (startup_exception_is_fatal mute_host shipped 1
              (fst (run mute_host shipped 1)) s
              [Ev 12 (Import "winsound") None] ev [] console_closed)
    as [_ Hout]; [vm_compute; reflexivity | exact Htrace | exact Hline | reflexivity |].
  exact Hout.
Defined.

Lemma banner_comes_first_witness :
  let s := snd (run calm_host shipped 1) in
  In (Ev 41 DatetimeNow None) (trace s)
  /\ ~ before_try (Ev 41 DatetimeNow None)
  /\ exists rest,
       trace s = banner calm_host shipped ++ rest
       /\ Forall (fun ev => ~ before_try ev) rest.
Proof.
  intros s.
  assert (Hin : In (Ev 41 DatetimeNow None) (trace s)).
  { vm_compute. do 5 right. left. reflexivity. }
  assert (Hline : ~ before_try (Ev 41 DatetimeNow None)).
  { intros Hb. cbn in Hb. repeat (destruct Hb as [Hb|Hb]; [discriminate|]). exact Hb. }
  split; [exact Hin|]. split; [exact Hline|].
  apply (banner_comes_first calm_host shipped 1 (fst (run calm_host shipped 1)) s
           (Ev 41 DatetimeNow None)); [vm_compute; reflexivity | exact Hin | exact Hline].
Defined.

Lemma base_exception_passes_through_witness :
  let s := snd (run leaving_host shipped 1) in
  let ev := Ev 72 (Sleep (PyInt 300)) (Some exit_request) in
  trace s = firstn 10 (trace s) ++ ev :: skipn 11 (trace s)
  /\ is_Exception exit_request = false
  /\ is_KeyboardInterrupt exit_request = false
  /\ skipn 11 (trace s) = [Ev 79 exiting None]
  /\ exit_status (fst (run leaving_host shipped 1)) = Some 3.
Proof.
  intros s ev.
  assert (Htrace : trace s = firstn 10 (trace s) ++ ev :: skipn 11 (trace s))
    by (vm_compute; reflexivity).
  split; [exact Htrace|]. split; [reflexivity|]. split; [reflexivity|].
  destruct (base_exception_passes_through leaving_host shipped 1
              (fst (run leaving_host shipped 1)) s
              (firstn 10 (trace s)) ev (skipn 11 (trace s)) exit_request)
    as (Hpost & Hout);
    [vm_compute; reflexivity | exact Htrace | reflexivity | reflexivity | reflexivity
    | reflexivity |].
  split; [exact Hpost|]. rewrite (Hout eq_refl). reflexivity.
Defined.

Lemma shutdown_message_has_cause_witness :
  let s := snd (run interrupting_host shipped 1) in
  let ev := Ev 74 stopped_by_user None in
  trace s = firstn 11 (trace s) ++ ev :: skipn 12 (trace s)
  /\ exists pre' cause e,
       firstn 11 (trace s) = pre' ++ [cause]
       /\ in_loop (ev_line cause) = true
       /\ ev_reply cause = Some e
       /\ is_KeyboardInterrupt e = true.
Proof.
  intros s ev.
  assert (Htrace : trace s = firstn 11 (trace s) ++ ev :: skipn 12 (trace s))
    by (vm_compute; reflexivity).
  split; [exact Htrace|].
  destruct (shutdown_message_has_cause interrupting_host shipped 1
              (fst (run interrupting_host shipped 1)) s
              (firstn 11 (trace s)) ev (skipn 12 (trace s)))
    as (pre' & cause & e & Hpre & Hloop & Hreply & Hint & _);
    [vm_compute; reflexivity | exact Htrace | left; reflexivity |].
  exists pre', cause, e. repeat split; try assumption. apply Hint. reflexivity.
Defined.

Lemma exiting_is_last_witness :
  let r := run interrupting_host shipped 1 in
  (exists pre reply,
     trace (snd r) = pre ++ [Ev 79 exiting reply]
     /\ Forall (fun ev => ev_line ev <> 79%nat) pre /\ fst r <> Running)
  \/ (Forall (fun ev => ev_line ev <> 79%nat) (trace (snd r)) /\ fst r <> Finished).
Proof.
  intros r.
  apply (exiting_is_last interrupting_host shipped 1 (fst r) (snd r)).
  vm_compute. reflexivity.
Defined.

Lemma report_failure_escapes_witness :
  configured shipped (loaded shipped)
  /\ sound_fails_at closing_host 3 device_busy
  /\ respond closing_host 4 (snd (failure_report closing_host device_busy))
     = Some console_closed
  /\ exists s' rest,
       play_windows_notification closing_host (loaded shipped) = (Raise console_closed, s')
       /\ iteration closing_host (loaded shipped) = (Raise console_closed, s')
       /\ while_true 3 (iteration closing_host) (loaded shipped) = (Raise console_closed, s')
       /\ log s' = Ev (fst (failure_report closing_host device_busy))
                      (snd (failure_report closing_host device_busy))
                      (Some console_closed) :: rest
       /\ length (log s') = 5%nat.
Proof.
  assert (Hquiet : forall i, (i < 4)%nat -> quiet_at closing_host i).
  { intros i Hi c Hc. cbn. rewrite Hc. destruct c; try reflexivity.
    do 4 (destruct i as [|i]; [reflexivity|]). lia. }
  assert (Hfail : sound_fails_at closing_host 3 device_busy).
  { intros c Hc. cbn. rewrite Hc. reflexivity. }
  split; [reflexivity|]. split; [exact Hfail|]. split; [reflexivity|].
  apply (report_failure_escapes closing_host shipped 2 (loaded shipped)
           device_busy console_closed eq_refl
           (Hquiet 0%nat ltac:(lia)) (Hquiet 1%nat ltac:(lia)) (Hquiet 2%nat ltac:(lia))
           Hfail eq_refl eq_refl).
Defined.

Lemma running_counts_witness :
  let s := snd (run busy_host shipped 2) in
  run busy_host shipped 2 = (Running, s)
  /\ count_calls is_clock (trace s) = 2%nat
  /\ count_calls is_sleep (trace s) = 2%nat
  /\ (count_calls is_sound (trace s) <= 2)%nat
  /\ forall ev, In ev (trace s) -> is_sleep (ev_call ev) = true ->
       ev = Ev 72 (Sleep (INTERVAL_SECONDS shipped)) None.
Proof.
  intros s.
  assert (Hrun : run busy_host shipped 2 = (Running, s)) by (vm_compute; reflexivity).
  split; [exact Hrun|]. exact (running_counts busy_host shipped 2 s Hrun).
Defined.

Lemma sound_and_wait_are_announced_witness :
  let s := snd (run calm_host shipped 1) in
  let ev := Ev 44 (PlaySound (PyStr "SystemAsterisk") 65536) None in
  trace s = firstn 8 (trace s) ++ ev :: skipn 9 (trace s)
  /\ exists pre',
       firstn 8 (trace s)
       = pre' ++ [Ev 41 DatetimeNow None; Ev 41 (playing_line calm_host (length pre')) None;
                  Ev 43 (Print "(Using alias: SystemAsterisk)") None].
Proof.
  intros s ev.
  assert (Htrace : trace s = firstn 8 (trace s) ++ ev :: skipn 9 (trace s))
    by (vm_compute; reflexivity).
  split; [exact Htrace|].
  destruct (sound_and_wait_are_announced calm_host shipped 1
              (fst (run calm_host shipped 1)) s
              (firstn 8 (trace s)) ev (skipn 9 (trace s)))
    as [_ Hsound]; [vm_compute; reflexivity | exact Htrace |].
  destruct (Hsound eq_refl) as (line & pre' & [= <-] & Hpre).
  exists pre'. exact Hpre.
Defined.

Lemma unselected_settings_are_ignored_witness :
  same_settings shipped retuned
  /\ fst (run busy_host shipped 2) = fst (run busy_host retuned 2)
  /\ trace (snd (run busy_host shipped 2)) = trace (snd (run busy_host retuned 2)).
Proof.
  assert (Hsame : same_settings shipped retuned) by (repeat split).
  split; [exact Hsame|].
  exact (unselected_settings_are_ignored busy_host shipped retuned Hsame 2).
Defined.
